(** * flatten: the filtering, traversal and deduplication engine

    A shallow embedding of [filter.go] and [cmd/flatten/main.go] (together
    with the metadata-printing variant of [printFlattenedOutput]) and the
    properties of the tree build, the visibility filter, the counters, the
    directory diagram and the duplicate-aware file records.

    Conventions.
    - A Go [string] and a Go [[]byte] are byte sequences: [string] and
      [list byte]; [string(content)] is [string_of_list_byte].
    - [int] and [int64] are [Z] with the two's-complement wrap-around of
      64-bit addition written out ([wrap64]).
    - A Go [error] is its message ([err.Error()]); [%w] splices the message
      of the wrapped error into the new one.
    - A result [(p, err)] with [p] a pointer is a pair of options: [None]
      is [nil].
    - The target is Unix ([syscall.SysProcAttr.Setpgid] in main.go), so the
      path separator is the slash. *)

From Stdlib Require Import ZArith List Bool Lia.
From Stdlib Require Import Strings.String Strings.Ascii Strings.Byte.
From stdpp Require Import base strings gmap list pretty.

Open Scope string_scope.
Open Scope Z_scope.

(** ** Small Go runtime: integers, text *)

(** 64-bit two's-complement wrap-around of a mathematical integer. *)
Definition wrap64 (z : Z) : Z := (z + 2 ^ 63) mod 2 ^ 64 - 2 ^ 63.

(** The line feed written ["\n"] in the Go sources. *)
Definition LF : string := String (ascii_of_nat 10) EmptyString.

(** [%d] of [fmt.Sprintf]. *)
Definition fmt_d (z : Z) : string := pretty z.

(** A Go error value, by its message. *)
Definition error := string.

(** ** Package strings *)
Module Strings.

(** [strings.Contains(s, substr)]: [substr] occurs in [s]. *)
Fixpoint Contains (s substr : string) : bool :=
  String.prefix substr s
  || match s with
     | EmptyString => false
     | String _ s' => Contains s' substr
     end.

(** [strings.Join(elems, sep)]. *)
Fixpoint Join (elems : list string) (sep : string) : string :=
  match elems with
  | [] => ""
  | [e] => e
  | e :: rest => e +:+ sep +:+ Join rest sep
  end.

(** The elements of [s] between occurrences of the byte [sep]
    ([strings.Split] for a one-byte separator): never an empty list. *)
Fixpoint Split (sep : ascii) (s : string) : list string :=
  match s with
  | EmptyString => [""]
  | String c s' =>
      if Ascii.eqb c sep then "" :: Split sep s'
      else match Split sep s' with
           | e :: rest => String c e :: rest
           | [] => [String c ""]
           end
  end.

End Strings.

(** ** Package path/filepath, Unix *)
Module Filepath.

Definition Separator : ascii := "/"%char.

Definition IsPathSeparator (c : ascii) : bool := Ascii.eqb c Separator.

(** [filepath.ToSlash]: the identity where the separator is the slash. *)
Definition ToSlash (path : string) : string := path.

(** Loops over the bytes of a path, read from its end. *)
Fixpoint dropWhile (p : ascii -> bool) (l : list ascii) : list ascii :=
  match l with
  | [] => []
  | c :: l' => if p c then dropWhile p l' else l
  end.

Fixpoint takeWhile (p : ascii -> bool) (l : list ascii) : list ascii :=
  match l with
  | [] => []
  | c :: l' => if p c then c :: takeWhile p l' else []
  end.

(** [filepath.Base]: the last element of [path], trailing separators
    removed first; ["."] for the empty path, ["/"] for a path of
    separators only. *)
Definition Base (path : string) : string :=
  if String.eqb path "" then "."
  else
    (* strip trailing slashes *)
    let stripped := dropWhile IsPathSeparator (rev (list_ascii_of_string path)) in
    (* the last element: what follows the last separator *)
    let elem := takeWhile (fun c => negb (IsPathSeparator c)) stripped in
    match elem with
    | [] => String Separator ""
    | _ => string_of_list_ascii (rev elem)
    end.

(** [filepath.Clean], by path elements: empty and ["."] elements vanish,
    an inner [".."] removes the element before it, a [".."] that would
    climb above the root of a rooted path vanishes, leading [".."] of a
    relative path stay; the empty result is ["."]. [out] holds the elements
    written so far, last one first. *)
Definition cleanStep (rooted : bool) (out : list string) (elem : string) : list string :=
  if String.eqb elem "" || String.eqb elem "." then out
  else if String.eqb elem ".." then
    match out with
    | last :: out' =>
        if String.eqb last ".." then elem :: out   (* cannot backtrack, not rooted *)
        else out'                                  (* can backtrack *)
    | [] => if rooted then [] else [elem]
    end
  else elem :: out.

Definition Clean (path : string) : string :=
  match path with
  | EmptyString => "."
  | String c _ =>
      let rooted := IsPathSeparator c in
      let out := fold_left (cleanStep rooted) (Strings.Split Separator path) [] in
      let cleaned :=
        (if rooted then String Separator "" else "") +:+ Strings.Join (rev out) (String Separator "") in
      if String.eqb cleaned "" then "." else cleaned
  end.

(** [filepath.Join] of two elements: the first non-empty element onwards,
    joined by the separator and cleaned; the empty string if both are empty. *)
Definition Join (a b : string) : string :=
  if negb (String.eqb a "") then Clean (a +:+ String Separator "" +:+ b)
  else if negb (String.eqb b "") then Clean b
  else "".

End Filepath.

(** ** The world outside the program

    What the program obtains from the operating system and from the
    libraries whose code is not part of it. The file system is read, never
    written, by the modelled code and is taken not to change during a run,
    so each call is a function of its arguments. *)

(** [os.FileInfo], as far as the program reads it. *)
Record FileInfo := mkFileInfo {
  info_IsDir : bool;
  info_Size : Z;        (* int64 *)
  info_Mode : Z;        (* fs.FileMode, uint32 *)
  info_ModTime : Z      (* ModTime().Unix() *)
}.

(** A compiled ignore file ([*ignore.GitIgnore]): its [MatchesPath]. *)
Record GitIgnore := mkGitIgnore {
  MatchesPath : string -> bool
}.

Record Runtime := mkRuntime {
  (** [os.Stat] *)
  os_Stat : string -> FileInfo + error;
  (** [os.ReadFile], for the calls that return: the content or an error.
      The call allocates its buffer from the size of the file, one byte
      more than the size, and the program ends there, with a panic of
      the allocation, when it cannot have it; no tree is built then. *)
  os_ReadFile : string -> list byte + error;
  (** [os.ReadDir], by the names of the entries, in the order returned *)
  os_ReadDir : string -> list string + error;
  (** [ignore.CompileIgnoreFile] *)
  ignore_CompileIgnoreFile : string -> GitIgnore + error;
  (** [filepath.Rel] *)
  filepath_Rel : string -> string -> string + error;
  (** [hex.EncodeToString] of the SHA-256 digest *)
  sha256_hex : list byte -> string
}.

(** ** filter.go *)

(** Filter handles file filtering logic *)
Record Filter := mkFilter {
  gitIgnore : option GitIgnore;
  includeAll : bool;
  includeGit : bool;
  baseDir : string
}.

Section FilterGo.
Variable rt : Runtime.

(** NewFilter creates a new filter for the given directory *)
Definition NewFilter (dir : string) (includeGitIgnore includeGit : bool) : Filter + error :=
  let f := {| gitIgnore := None; includeAll := includeGitIgnore;
              includeGit := includeGit; baseDir := dir |} in
  if negb includeGitIgnore then
    let gitIgnorePath := Filepath.Join dir ".gitignore" in
    match os_Stat rt gitIgnorePath with
    | inl _ =>
        match ignore_CompileIgnoreFile rt gitIgnorePath with
        | inr err => inr err
        | inl gi => inl {| gitIgnore := Some gi; includeAll := includeGitIgnore;
                           includeGit := includeGit; baseDir := dir |}
        end
    | inr _ => inl f
    end
  else inl f.

(** ShouldInclude returns true if the file/directory should be included *)
Definition ShouldInclude (f : Filter) (path : string) : bool :=
  let afterGitCheck :=
    if includeAll f then true
    else
      (* If no .gitignore was found, include everything *)
      match gitIgnore f with
      | None => true
      | Some gi =>
          (* Make path relative to the base directory for gitignore matching *)
          match filepath_Rel rt (baseDir f) path with
          | inr _ =>
              (* If we can't get relative path, include the file to be safe *)
              true
          | inl relPath =>
              (* Convert Windows paths to forward slashes for gitignore matching *)
              let relPath := Filepath.ToSlash relPath in
              negb (MatchesPath gi relPath)
          end
      end in
  (* Check for .git directory unless explicitly included *)
  if negb (includeGit f) then
    let base := Filepath.Base path in
    if String.eqb base ".git" then false
    (* Also check if path contains /.git/ to catch subdirectories *)
    else if Strings.Contains (Filepath.ToSlash path) "/.git/" then false
    else afterGitCheck
  else afterGitCheck.

End FilterGo.

(** ** cmd/flatten/main.go *)

Unset Elimination Schemes.
(** FileEntry represents a file in the flattened structure. [Children]
    holds the pointers appended by [loadDirectory], none of them nil. *)
Inductive FileEntry : Type := mkFileEntry {
  Path : string;
  IsDir : bool;
  Size : Z;               (* int64 *)
  Mode : Z;               (* fs.FileMode *)
  ModTime : Z;            (* int64 *)
  Content : list byte;
  Children : list FileEntry
}.
Set Elimination Schemes.

(** [entry.Content = content] *)
Definition setContent (entry : FileEntry) (content : list byte) : FileEntry :=
  {| Path := Path entry; IsDir := IsDir entry; Size := Size entry; Mode := Mode entry;
     ModTime := ModTime entry; Content := content; Children := Children entry |}.

(** [entry.Children = children] *)
Definition setChildren (entry : FileEntry) (children : list FileEntry) : FileEntry :=
  {| Path := Path entry; IsDir := IsDir entry; Size := Size entry; Mode := Mode entry;
     ModTime := ModTime entry; Content := Content entry; Children := children |}.

(** FileHash represents a file hash and its path *)
Record FileHash := mkFileHash {
  fh_Path : string;
  fh_Hash : string;
  fh_Content : list byte
}.

(** The flag variables of main.go read by the modelled functions. *)
Record Flags := mkFlags {
  flag_includeGitIgnore : bool;
  flag_includeGit : bool;
  flag_noFileDeduplication : bool
}.

(** The values the flags have when none is given on the command line. *)
Definition defaultFlags : Flags :=
  {| flag_includeGitIgnore := false; flag_includeGit := false;
     flag_noFileDeduplication := false |}.

(** What a call leaves behind: a normal return or a run-time panic
    (here always the dereference of a nil pointer). *)
Inductive outcome (A : Type) : Type :=
| Returned (a : A)
| Panicked.
Arguments Returned {A} a.
Arguments Panicked {A}.

(** The result pair of [loadDirectory]: entry pointer and error. *)
Definition loadResult : Type := option FileEntry * option error.

Section MainGo.
Variable rt : Runtime.

(** The [for _, item := range entries] loop of [loadDirectory], over the
    entries still to visit; [load] is the recursive call and [entry] the
    directory entry built so far. [None]: the recursion budget ran out. *)
Fixpoint loadChildren (load : string -> option loadResult) (path : string)
    (entries : list string) (entry : FileEntry) : option loadResult :=
  match entries with
  | [] => Some (Some entry, None)
  | item :: rest =>
      let childPath := Filepath.Join path item in
      match load childPath with
      | None => None
      | Some (_, Some err) => Some (None, Some err)
      | Some (child, None) =>
          (* Only append child if it wasn't filtered out *)
          match child with
          | Some c =>
              loadChildren load path rest (setChildren entry (Children entry ++ [c]))
          | None => loadChildren load path rest entry
          end
      end
  end.

(** [loadDirectory]. The recursion follows the file system, which need not
    be well-founded as a function; [fuel] bounds its depth and the result
    is [None] when the bound is reached. *)
Fixpoint loadDirectory (filter : Filter) (fuel : nat) (path : string) : option loadResult :=
  match fuel with
  | O => None
  | S fuel' =>
      match os_Stat rt path with
      | inr err => Some (None, Some ("failed to stat path " +:+ path +:+ ": " +:+ err))
      | inl info =>
          (* Check if the file should be included *)
          if negb (ShouldInclude rt filter path) then Some (None, None)
          else
            let entry :=
              {| Path := path; IsDir := info_IsDir info; Size := info_Size info;
                 Mode := info_Mode info; ModTime := info_ModTime info;
                 Content := []; Children := [] |} in
            if negb (info_IsDir info) then
              match os_ReadFile rt path with
              | inr err => Some (None, Some ("failed to read file " +:+ path +:+ ": " +:+ err))
              | inl content => Some (Some (setContent entry content), None)
              end
            else
              match os_ReadDir rt path with
              | inr err =>
                  Some (None, Some ("failed to read directory " +:+ path +:+ ": " +:+ err))
              | inl entries => loadChildren (loadDirectory filter fuel') path entries entry
              end
      end
  end.

(** The three places where [loadDirectory] fails, and the error each makes
    of the path and of the error of the failed call. *)
Inductive failureKind := StatFailure | ReadFailure | ListFailure.

Definition failureMessage (kind : failureKind) (path : string) (cause : error) : error :=
  match kind with
  | StatFailure => "failed to stat path " +:+ path +:+ ": " +:+ cause
  | ReadFailure => "failed to read file " +:+ path +:+ ": " +:+ cause
  | ListFailure => "failed to read directory " +:+ path +:+ ": " +:+ cause
  end.

(** [WalkFails filter depth root kind path cause]: the walk started at
    [root] comes, within [depth] nested calls, to the [path] at which the
    call of [kind] fails with [cause]: it stats [root]; if the entry is
    included it reads it or lists it; and it walks the listed children in
    order, going on to the next one when the walk of the one before has
    returned without an error. *)
Inductive WalkFails (filter : Filter) : nat -> string -> failureKind -> string -> error -> Prop :=
| WalkFails_stat depth root cause :
    os_Stat rt root = inr cause ->
    WalkFails filter (S depth) root StatFailure root cause
| WalkFails_read depth root info cause :
    os_Stat rt root = inl info ->
    ShouldInclude rt filter root = true ->
    info_IsDir info = false ->
    os_ReadFile rt root = inr cause ->
    WalkFails filter (S depth) root ReadFailure root cause
| WalkFails_list depth root info cause :
    os_Stat rt root = inl info ->
    ShouldInclude rt filter root = true ->
    info_IsDir info = true ->
    os_ReadDir rt root = inr cause ->
    WalkFails filter (S depth) root ListFailure root cause
| WalkFails_child depth root info before item after kind path cause :
    os_Stat rt root = inl info ->
    ShouldInclude rt filter root = true ->
    info_IsDir info = true ->
    os_ReadDir rt root = inl (before ++ item :: after)%list ->
    Forall (fun name => exists child,
              loadDirectory filter depth (Filepath.Join root name) = Some (child, None))
           before ->
    WalkFails filter depth (Filepath.Join root item) kind path cause ->
    WalkFails filter (S depth) root kind path cause.

(** getTotalFiles returns the total number of files (excluding directories) *)
Fixpoint getTotalFiles (entry : FileEntry) : Z :=
  if negb (IsDir entry) then 1
  else
    fold_left (fun total child => wrap64 (total + getTotalFiles child))
      (Children entry) 0.

(** getTotalSize returns the total size of all files *)
Fixpoint getTotalSize (entry : FileEntry) : Z :=
  if negb (IsDir entry) then Size entry
  else
    fold_left (fun total child => wrap64 (total + getTotalSize child))
      (Children entry) 0.

(** The [for i, child := range entry.Children] loop of [renderDirTree],
    over the children still to render; [render] is the recursive call with
    the new prefix, [len] is [len(entry.Children)]. *)
Section RenderChildren.
Variable render : FileEntry -> bool -> string.
Variable len : Z.

Fixpoint renderChildren (children : list FileEntry) (i : Z) (sb : string) : string :=
  match children with
  | [] => sb
  | child :: rest =>
      let isLastChild := i =? len - 1 in
      renderChildren rest (i + 1) (sb +:+ render child isLastChild)
  end.

End RenderChildren.

(** renderDirTree returns a string representation of the directory tree *)
Fixpoint renderDirTree (entry : FileEntry) (prefix : string) (isLast : bool) : string :=
  let sb := "" in
  let sb :=
    if negb (String.eqb (Path entry) ".") then
      let marker := if isLast then "└── " else "├── " in
      sb +:+ (prefix +:+ marker +:+ Filepath.Base (Path entry) +:+ LF)
    else sb in
  if IsDir entry then
    let newPrefix :=
      if negb (String.eqb (Path entry) ".") then
        if isLast then prefix +:+ "    " else prefix +:+ "│   "
      else prefix in
    renderChildren (fun child isLastChild => renderDirTree child newPrefix isLastChild)
      (Z.of_nat (length (Children entry))) (Children entry) 0 sb
  else sb.

(** calculateFileHash calculates the SHA256 hash of a file content *)
Definition calculateFileHash (content : list byte) : string := sha256_hex rt content.

(** The two texts written for a file: its path line and its fenced content. *)
Definition pathLine (entry : FileEntry) : string :=
  LF +:+ "- path: " +:+ Path entry +:+ LF.

Definition contentBlock (entry : FileEntry) : string :=
  "- content:" +:+ LF +:+ "```" +:+ LF +:+ string_of_list_byte (Content entry) +:+ LF
  +:+ "```" +:+ LF.

Definition identicalLine (existing : string) : string :=
  "- content: Contents are identical to " +:+ existing +:+ LF.

(** printFlattenedOutput prints all files and their contents. The builder
    [w] and the map [fileHashes] are shared by all the recursive calls:
    they are threaded through as a pair. *)
Fixpoint printFlattenedOutput (noFileDeduplication : bool) (entry : FileEntry)
    (st : string * gmap string FileHash) {struct entry} : string * gmap string FileHash :=
  let '(w, fileHashes) := st in
  if negb (IsDir entry) then
    if noFileDeduplication then
      (* Skip deduplication if flag is set *)
      ((w +:+ pathLine entry) +:+ contentBlock entry, fileHashes)
    else
      let hash := calculateFileHash (Content entry) in
      match fileHashes !! hash with
      | Some existing =>
          (* This is a duplicate file *)
          ((w +:+ pathLine entry) +:+ identicalLine (fh_Path existing), fileHashes)
      | None =>
          (* This is the first occurrence of this file content *)
          let fileHashes :=
            <[hash := {| fh_Path := Path entry; fh_Hash := hash;
                         fh_Content := Content entry |}]> fileHashes in
          ((w +:+ pathLine entry) +:+ contentBlock entry, fileHashes)
      end
  else
    fold_left (fun st child => printFlattenedOutput noFileDeduplication child st)
      (Children entry) st.

(** A call [f(p)] of a function whose first statement reads a field of the
    entry its pointer argument [p] points to: it panics when [p] is nil. *)
Definition callOn {B : Type} (f : FileEntry -> B) (p : option FileEntry) : outcome B :=
  match p with
  | Some entry => Returned (f entry)
  | None => Panicked
  end.

Definition andThen {A B : Type} (x : outcome A) (k : A -> outcome B) : outcome B :=
  match x with
  | Returned a => k a
  | Panicked => Panicked
  end.

(** [rootCmd.RunE], up to the text it prints: the output as built and the
    error returned. The handling of the output after it is built (the
    [toFile] branch) is left out: the model is of a run without [--tf]. *)
Definition RunE (flags : Flags) (args : list string) (fuel : nat)
    : option (outcome (string * option error)) :=
  let dir := match args with a :: _ => a | [] => "." end in
  (* Create the filter *)
  match NewFilter rt dir (flag_includeGitIgnore flags) (flag_includeGit flags) with
  | inr err => Some (Returned ("", Some ("failed to create filter: " +:+ err)))
  | inl filter =>
      match loadDirectory filter fuel dir with
      | None => None
      | Some (_, Some err) =>
          Some (Returned ("", Some ("failed to load directory structure: " +:+ err)))
      | Some (root, None) =>
          Some
            ((* Write summary and directory tree *)
             andThen (callOn getTotalFiles root) (fun totalFiles =>
             let output := "" +:+ ("- Total files: " +:+ fmt_d totalFiles +:+ LF) in
             andThen (callOn getTotalSize root) (fun totalSize =>
             let output := output +:+ ("- Total size: " +:+ fmt_d totalSize +:+ " bytes" +:+ LF) in
             andThen (callOn (fun e => renderDirTree e "" false) root) (fun tree =>
             let output := output +:+ ("- Dir tree:" +:+ LF +:+ tree +:+ LF) in
             (* Initialize fileHashes map *)
             let fileHashes : gmap string FileHash := ∅ in
             (* Write flattened file contents with duplicate detection *)
             andThen (callOn (fun e => printFlattenedOutput (flag_noFileDeduplication flags) e
                                         (output, fileHashes)) root) (fun st =>
             Returned (fst st, None))))))
      end
  end.

End MainGo.

(** ** The main.go with metadata flags

    The second main.go of the sources has the same [loadDirectory], up to
    the call of a filter that is not among the sources, the same counters
    and the same [renderDirTree]. Its [printFlattenedOutput] differs: the
    path line is followed by the metadata lines the flags ask for. *)
Module MainMeta.

Record MetaFlags := mkMetaFlags {
  showLastUpdated : bool;
  showFileMode : bool;
  showFileSize : bool;
  showMimeType : bool;
  showSymlinks : bool;
  showOwnership : bool;
  showChecksum : bool;
  showAllMetadata : bool;
  noFileDeduplication : bool
}.

(** The library calls behind the metadata lines. *)
Record MetaRuntime := mkMetaRuntime {
  (** [time.Unix(t, 0).Format(time.RFC3339)] *)
  time_RFC3339 : Z -> string;
  (** [fs.FileMode.String] *)
  FileMode_String : Z -> string;
  (** [mime.TypeByExtension(filepath.Ext(path))] *)
  mime_TypeByExtension : string -> string;
  (** [http.DetectContentType] *)
  http_DetectContentType : list byte -> string;
  (** [os.Readlink] *)
  os_Readlink : string -> string + error;
  (** [os.Stat] followed by the assertion of [info.Sys()] to a
      [syscall.Stat_t] pointer: the uid and gid, or nothing if either
      step fails *)
  os_Stat_t : string -> option (Z * Z);
  (** [user.LookupId], [user.LookupGroupId]: the user name, the group name *)
  user_LookupId : Z -> string + error;
  user_LookupGroupId : Z -> string + error
}.

(** [os.ModeSymlink] *)
Definition ModeSymlink : Z := Z.shiftl 1 27.

Section Printing.
Variable rt : Runtime.
Variable mrt : MetaRuntime.
Variable flags : MetaFlags.

Definition guessMimeType (path : string) (content : list byte) : string :=
  let mimeType := mime_TypeByExtension mrt path in
  if negb (String.eqb mimeType "") then mimeType
  else http_DetectContentType mrt content.

(** The metadata statements of [printFlattenedOutput], one by one: each
    writes its line to [w], or nothing. *)
Definition writeLastUpdated (entry : FileEntry) (w : string) : string :=
  if showAllMetadata flags || showLastUpdated flags then
    w +:+ ("- last updated: " +:+ time_RFC3339 mrt (ModTime entry) +:+ LF)
  else w.

Definition writeMode (entry : FileEntry) (w : string) : string :=
  if showAllMetadata flags || showFileMode flags then
    w +:+ ("- mode: " +:+ FileMode_String mrt (Mode entry) +:+ LF)
  else w.

Definition writeSize (entry : FileEntry) (w : string) : string :=
  if showAllMetadata flags || showFileSize flags then
    w +:+ ("- size: " +:+ fmt_d (Size entry) +:+ " bytes" +:+ LF)
  else w.

Definition writeMimeType (entry : FileEntry) (w : string) : string :=
  if showAllMetadata flags || showMimeType flags then
    let mimeType := guessMimeType (Path entry) (Content entry) in
    w +:+ ("- mime-type: " +:+ mimeType +:+ LF)
  else w.

Definition writeSymlinkTarget (entry : FileEntry) (w : string) : string :=
  if showAllMetadata flags
     || (showSymlinks flags && negb (Z.land (Mode entry) ModeSymlink =? 0)) then
    match os_Readlink mrt (Path entry) with
    | inl target => w +:+ ("- symlink-target: " +:+ target +:+ LF)
    | inr _ => w
    end
  else w.

Definition writeOwnership (entry : FileEntry) (w : string) : string :=
  if showAllMetadata flags || showOwnership flags then
    match os_Stat_t mrt (Path entry) with
    | Some (uid, gid) =>
        let w :=
          match user_LookupId mrt uid with
          | inl owner => w +:+ ("- owner: " +:+ owner +:+ LF)
          | inr _ => w
          end in
        match user_LookupGroupId mrt gid with
        | inl group => w +:+ ("- group: " +:+ group +:+ LF)
        | inr _ => w
        end
    | None => w
    end
  else w.

Definition writeChecksum (entry : FileEntry) (w : string) : string :=
  if showAllMetadata flags || showChecksum flags then
    let hash := calculateFileHash rt (Content entry) in
    w +:+ ("- sha256: " +:+ hash +:+ LF)
  else w.

(** The lines written between the path line and the content of a file. *)
Definition metadataLines (entry : FileEntry) (w : string) : string :=
  let w := writeLastUpdated entry w in
  let w := writeMode entry w in
  let w := writeSize entry w in
  let w := writeMimeType entry w in
  let w := writeSymlinkTarget entry w in
  let w := writeOwnership entry w in
  writeChecksum entry w.

Fixpoint printFlattenedOutput (entry : FileEntry)
    (st : string * gmap string FileHash) {struct entry} : string * gmap string FileHash :=
  let '(w, fileHashes) := st in
  if negb (IsDir entry) then
    let w := w +:+ pathLine entry in
    let w := metadataLines entry w in
    if noFileDeduplication flags then
      (w +:+ contentBlock entry, fileHashes)
    else
      let hash := calculateFileHash rt (Content entry) in
      match fileHashes !! hash with
      | Some existing => (w +:+ identicalLine (fh_Path existing), fileHashes)
      | None =>
          let fileHashes :=
            <[hash := {| fh_Path := Path entry; fh_Hash := hash;
                         fh_Content := Content entry |}]> fileHashes in
          (w +:+ contentBlock entry, fileHashes)
      end
  else
    fold_left (fun st child => printFlattenedOutput child st) (Children entry) st.

End Printing.
End MainMeta.

(** ** Reading a tree: entries, files, counters, invariant *)

(** Every entry of a tree, parents before children. *)
Fixpoint entriesOf (entry : FileEntry) : list FileEntry :=
  entry :: flat_map entriesOf (Children entry).

(** The entries strictly below an entry. *)
Definition descendantsOf (entry : FileEntry) : list FileEntry :=
  flat_map entriesOf (Children entry).

(** The file entries in the order of the depth-first traversal, children in
    listing order; nothing is looked for below a file entry. *)
Fixpoint filesOf (entry : FileEntry) : list FileEntry :=
  if negb (IsDir entry) then [entry]
  else flat_map filesOf (Children entry).

(** The data-model invariant of one entry. *)
Definition entryInvariant (entry : FileEntry) : Prop :=
  (IsDir entry = true -> Content entry = [])
  /\ (IsDir entry = false -> Children entry = []).

(** The invariant at the root and at every descendant. *)
Definition treeInvariant (root : FileEntry) : Prop :=
  Forall entryInvariant (entriesOf root).

(** The number of non-directory entries of a tree. *)
Definition countFileEntries (root : FileEntry) : Z :=
  Z.of_nat (length (List.filter (fun e => negb (IsDir e)) (entriesOf root))).

(** The sum of the sizes of the non-directory entries of a tree. *)
Definition sumFileSizes (root : FileEntry) : Z :=
  fold_right Z.add 0
    (map Size (List.filter (fun e => negb (IsDir e)) (entriesOf root))).

(** The values of type int64. *)
Definition isInt64 (z : Z) : Prop := - 2 ^ 63 <= z < 2 ^ 63.

(** The non-directory entries of a tree. *)
Definition fileEntriesOf (root : FileEntry) : list FileEntry :=
  List.filter (fun e => negb (IsDir e)) (entriesOf root).

(** A tree that the build holds in memory. [os.ReadFile] has read each
    file into a buffer of one byte more than the size of the file, at
    least, and the buffers of all the files stay allocated while the tree
    is: the sizes are sizes of files, not negative, and the buffers
    together are less than the 2^63 bytes that a Go program can address. *)
Definition heldInMemory (root : FileEntry) : Prop :=
  Forall (fun e => 0 <= Size e) (fileEntriesOf root)
  /\ fold_right Z.add 0 (map (fun e => Size e + 1) (fileEntriesOf root)) < 2 ^ 63.

(** ** The directory diagram, line by line *)

(** What a line owes to one ancestor, and the connector of the line. *)
Definition indentOf (ancestorIsLast : bool) : string :=
  if ancestorIsLast then "    " else "│   ".

Definition connectorOf (isLast : bool) : string :=
  if isLast then "└── " else "├── ".

Definition diagramLine (ancestors : list bool) (isLast : bool) (entry : FileEntry) : string :=
  fold_right String.append "" (map indentOf ancestors)
  +:+ connectorOf isLast +:+ Filepath.Base (Path entry) +:+ LF.

(** The lines of the children of a directory, in order; a child is last
    when no sibling follows it. [lines] gives the lines of one child. *)
Section LinesBelow.
Variable lines : bool -> FileEntry -> list string.

Fixpoint linesBelow (children : list FileEntry) : list string :=
  match children with
  | [] => []
  | child :: rest =>
      (lines (match rest with [] => true | _ => false end) child
       ++ linesBelow rest)%list
  end.

End LinesBelow.

(** The lines of a printed entry and of what is below it. [ancestors] says
    of each printed ancestor, outermost first, whether it was the last
    child of its directory. *)
Fixpoint diagramLines (ancestors : list bool) (isLast : bool) (entry : FileEntry)
    {struct entry} : list string :=
  diagramLine ancestors isLast entry
  :: (if IsDir entry then
        linesBelow (fun last child => diagramLines (ancestors ++ [isLast])%list last child)
          (Children entry)
      else []).

(** The diagram of a tree: the root is left out when its path is ["."],
    and is the first line, as a non-last entry, otherwise. *)
Definition diagramOf (root : FileEntry) : list string :=
  if String.eqb (Path root) "." then
    if IsDir root then linesBelow (diagramLines []) (Children root) else []
  else diagramLines [] false root.

(** ** The records of the files, by first occurrence *)

Section Records.
Variable hashOf : list byte -> string.

(** The first of the files rendered before with the digest of [entry]. *)
Definition firstWithDigest (earlier : list FileEntry) (entry : FileEntry) : option FileEntry :=
  List.find (fun e => String.eqb (hashOf (Content e)) (hashOf (Content entry))) earlier.

(** The record of each file of [files], in order, [earlier] being the files
    rendered before them; [between] is the text between the path line and
    the content. *)
Fixpoint recordsFrom (between : FileEntry -> string) (earlier files : list FileEntry)
    : list string :=
  match files with
  | [] => []
  | entry :: rest =>
      (pathLine entry +:+ between entry
       +:+ match firstWithDigest earlier entry with
           | Some first => identicalLine (Path first)
           | None => contentBlock entry
           end)
      :: recordsFrom between (earlier ++ [entry])%list rest
  end.

(** [fileHashes] holds, for each digest, the first of the files rendered
    so far that has it. *)
Definition tracks (fileHashes : gmap string FileHash) (earlier : list FileEntry) : Prop :=
  forall hash,
    fileHashes !! hash
    = (fun e => {| fh_Path := Path e; fh_Hash := hash; fh_Content := Content e |})
      <$> List.find (fun e => String.eqb (hashOf (Content e)) hash) earlier.

(** The record of a file when duplicates are not looked for. *)
Definition fullRecord (between : FileEntry -> string) (entry : FileEntry) : string :=
  pathLine entry +:+ between entry +:+ contentBlock entry.

End Records.

(** A statement that writes to the builder adds to what it holds. *)
Definition appends (write : string -> string) : Prop :=
  forall w, write w = w +:+ write "".

(** The text of a list of pieces written one after the other. *)
Definition written (pieces : list string) : string :=
  fold_right String.append "" pieces.

(** ** Path segments *)

(** The segments of a path: what stands between its slashes. *)
Definition segments (path : string) : list string :=
  Strings.Split Filepath.Separator path.

(** ** A concrete world to run the program in *)
Module Fixture.

(** What a path of the sample file system holds. *)
Inductive node :=
| File (size : Z) (content : list byte + error)
| Dir (entries : list string + error).

Definition bytes (s : string) : list byte := list_byte_of_string s.

Definition sample : list (string * node) :=
  [ (".", Dir (inl [".git"; "a.txt"; "sub"]));
    (".git", Dir (inl ["HEAD"; "hooks"]));
    (".git/HEAD", File 21 (inl (bytes "ref: refs/heads/main")));
    (".git/hooks", Dir (inl ["pre-commit"]));
    (".git/hooks/pre-commit", File 9 (inl (bytes "#!/bin/sh")));
    ("a.txt", File 5 (inl (bytes "hello")));
    ("sub", Dir (inl ["b.txt"]));
    ("sub/b.txt", File 5 (inl (bytes "hello")));
    ("src", Dir (inl ["a.go"; "lib"; "z.go"]));
    ("src/a.go", File 9 (inl (bytes "package a")));
    ("src/lib", Dir (inl ["b.go"]));
    ("src/lib/b.go", File 9 (inl (bytes "package b")));
    ("src/z.go", File 9 (inl (bytes "package a")));
    ("proj", Dir (inl [".gitignore"; "a.txt"; "sub"]));
    ("proj/.gitignore", File 5 (inl (bytes "sub/" ++ [x0a]%byte)));
    ("proj/a.txt", File 5 (inl (bytes "hello")));
    ("proj/sub", Dir (inl ["b.txt"]));
    ("proj/sub/b.txt", File 5 (inl (bytes "hello")));
    ("bad", Dir (inl ["ok.txt"; "secret"; "z.txt"]));
    ("bad/ok.txt", File 2 (inl (bytes "ok")));
    ("bad/secret", File 6 (inr "open bad/secret: permission denied"));
    ("bad/z.txt", File 1 (inl (bytes "z"))) ]%list.

Fixpoint lookup (path : string) (table : list (string * node)) : option node :=
  match table with
  | [] => None
  | (p, n) :: rest => if String.eqb p path then Some n else lookup path rest
  end.

Definition noEntry (op path : string) : error :=
  op +:+ " " +:+ path +:+ ": no such file or directory".

Definition Stat (path : string) : FileInfo + error :=
  match lookup path sample with
  | Some (File size _) =>
      inl {| info_IsDir := false; info_Size := size; info_Mode := 420; info_ModTime := 0 |}
  | Some (Dir _) =>
      inl {| info_IsDir := true; info_Size := 4096;
             info_Mode := Z.shiftl 1 31 + 493; info_ModTime := 0 |}
  | None => inr (noEntry "stat" path)
  end.

Definition ReadFile (path : string) : list byte + error :=
  match lookup path sample with
  | Some (File _ content) => content
  | Some (Dir _) => inr ("read " +:+ path +:+ ": is a directory")
  | None => inr (noEntry "open" path)
  end.

Definition ReadDir (path : string) : list string + error :=
  match lookup path sample with
  | Some (Dir entries) => entries
  | Some (File _ _) => inr ("readdirent " +:+ path +:+ ": not a directory")
  | None => inr (noEntry "open" path)
  end.

(** The only ignore file of the sample holds the pattern [sub/]. *)
Definition CompileIgnoreFile (path : string) : GitIgnore + error :=
  inl {| MatchesPath := fun rel => String.eqb rel "sub" || String.prefix "sub/" rel |}.

(** The elements of a cleaned path, for [Rel]. *)
Definition elements (cleaned : string) : list string :=
  if String.eqb cleaned "" then []
  else if String.eqb cleaned "/" then [""]
  else Strings.Split Filepath.Separator cleaned.

Fixpoint stripCommon (base targ : list string) : list string * list string :=
  match base, targ with
  | b :: base', t :: targ' =>
      if String.eqb b t then stripCommon base' targ' else (base, targ)
  | _, _ => (base, targ)
  end.

Definition isSlashed (path : string) : bool :=
  match path with
  | String c _ => Filepath.IsPathSeparator c
  | EmptyString => false
  end.

(** A lexical [filepath.Rel]: both paths cleaned; an error when one is
    rooted and the other is not, or when the base would have to climb out
    of a [..]; otherwise one [..] for each element left of the base,
    then what is left of the target. *)
Definition Rel (basepath targpath : string) : string + error :=
  let base := Filepath.Clean basepath in
  let targ := Filepath.Clean targpath in
  let failure := "Rel: can't make " +:+ targpath +:+ " relative to " +:+ basepath in
  if String.eqb targ base then inl "."
  else
    let base := if String.eqb base "." then "" else base in
    if xorb (isSlashed base) (isSlashed targ) then inr failure
    else
      let '(base', targ') := stripCommon (elements base) (elements targ) in
      match base' with
      | b :: _ => if String.eqb b ".." then inr failure
                  else inl (Strings.Join (map (fun _ => "..") base' ++ targ')%list "/")
      | [] => inl (Strings.Join targ' "/")
      end.

(** A stand-in for the digest: the content itself, so that two digests
    are equal exactly when the contents are. *)
Definition digest (content : list byte) : string := string_of_list_byte content.

Definition world : Runtime :=
  {| os_Stat := Stat; os_ReadFile := ReadFile; os_ReadDir := ReadDir;
     ignore_CompileIgnoreFile := CompileIgnoreFile;
     filepath_Rel := Rel; sha256_hex := digest |}.

(** The filter of a run on [dir] with the default flags. *)
Definition filterOf (dir : string) : Filter :=
  match NewFilter world dir false false with
  | inl f => f
  | inr _ => {| gitIgnore := None; includeAll := false; includeGit := false; baseDir := dir |}
  end.

(** The metadata calls, on the sample, and the flags of a run that asks
    for the size and the checksum of each file. *)
Definition metaWorld : MainMeta.MetaRuntime :=
  {| MainMeta.time_RFC3339 := fun _ => "1970-01-01T00:00:00Z";
     MainMeta.FileMode_String := fun _ => "-rw-r--r--";
     MainMeta.mime_TypeByExtension := fun _ => "";
     MainMeta.http_DetectContentType := fun _ => "text/plain; charset=utf-8";
     MainMeta.os_Readlink := fun path => inr ("readlink " +:+ path +:+ ": invalid argument");
     MainMeta.os_Stat_t := fun _ => Some (1000, 1000);
     MainMeta.user_LookupId := fun _ => inl "dev";
     MainMeta.user_LookupGroupId := fun _ => inl "dev" |}.

Definition sizeAndChecksum (noDedup : bool) : MainMeta.MetaFlags :=
  {| MainMeta.showLastUpdated := false; MainMeta.showFileMode := false;
     MainMeta.showFileSize := true; MainMeta.showMimeType := false;
     MainMeta.showSymlinks := false; MainMeta.showOwnership := false;
     MainMeta.showChecksum := true; MainMeta.showAllMetadata := false;
     MainMeta.noFileDeduplication := noDedup |}.

(** The tree built for [dir] with the default flags, nil if there is none. *)
Definition treeOf (dir : string) : option FileEntry :=
  match loadDirectory world (filterOf dir) 8 dir with
  | Some (Some root, None) => Some root
  | _ => None
  end.

End Fixture.

(** ** Notions for the further properties *)

(** What the check for the .git directory of [ShouldInclude] looks for. *)
Definition gitExcluded (path : string) : bool :=
  String.eqb (Filepath.Base path) ".git"
  || Strings.Contains (Filepath.ToSlash path) "/.git/".

(** The directory [RunE] works on: the first argument, or ["."]. *)
Definition dirOf (args : list string) : string :=
  match args with
  | a :: _ => a
  | [] => "."
  end.

(** A filter with one of its flags set. *)
Definition withIncludeGit (f : Filter) : Filter :=
  {| gitIgnore := gitIgnore f; includeAll := includeAll f;
     includeGit := true; baseDir := baseDir f |}.

Definition withIncludeAll (f : Filter) : Filter :=
  {| gitIgnore := gitIgnore f; includeAll := true;
     includeGit := includeGit f; baseDir := baseDir f |}.

(** The metadata flags of a run that asks for no metadata. *)
Definition noMetadata (noDedup : bool) : MainMeta.MetaFlags :=
  {| MainMeta.showLastUpdated := false; MainMeta.showFileMode := false;
     MainMeta.showFileSize := false; MainMeta.showMimeType := false;
     MainMeta.showSymlinks := false; MainMeta.showOwnership := false;
     MainMeta.showChecksum := false; MainMeta.showAllMetadata := false;
     MainMeta.noFileDeduplication := noDedup |}.

(** The digest of the content of an entry. *)
Definition digestOf (rt : Runtime) (entry : FileEntry) : string :=
  sha256_hex rt (Content entry).

(** The sample world with an ignore file that does not compile. *)
Definition brokenIgnoreWorld : Runtime :=
  {| os_Stat := Fixture.Stat; os_ReadFile := Fixture.ReadFile;
     os_ReadDir := Fixture.ReadDir;
     ignore_CompileIgnoreFile := fun path => inr ("invalid pattern in " +:+ path);
     filepath_Rel := Fixture.Rel; sha256_hex := Fixture.digest |}.


(** * Properties *)

(** ** Text and arithmetic *)

Lemma append_assoc (a b c : string) : (a +:+ b) +:+ c = a +:+ (b +:+ c).
Proof.
  induction a as [|x a IH]; [reflexivity|].
  change (String x ((a +:+ b) +:+ c) = String x (a +:+ (b +:+ c))).
  now rewrite IH.
Qed.

Lemma append_empty_r (a : string) : a +:+ "" = a.
Proof.
  induction a as [|x a IH]; [reflexivity|].
  change (String x (a +:+ "") = String x a). now rewrite IH.
Qed.

Lemma written_app (xs ys : list string) :
  written (xs ++ ys) = written xs +:+ written ys.
Proof.
  unfold written. induction xs as [|x xs IH]; [reflexivity|].
  change (x +:+ fold_right String.append "" (xs ++ ys)
          = (x +:+ fold_right String.append "" xs) +:+ fold_right String.append "" ys).
  rewrite IH. symmetry. apply append_assoc.
Qed.

Lemma wrap64_id (z : Z) : isInt64 z -> wrap64 z = z.
Proof.
  unfold isInt64, wrap64. intros Hz.
  rewrite Z.mod_small by lia. lia.
Qed.

Lemma wrap64_add (a b : Z) : wrap64 (wrap64 a + wrap64 b) = wrap64 (a + b).
Proof.
  unfold wrap64. f_equal.
  replace ((a + 2 ^ 63) mod 2 ^ 64 - 2 ^ 63 + ((b + 2 ^ 63) mod 2 ^ 64 - 2 ^ 63) + 2 ^ 63)
    with ((a + 2 ^ 63) mod 2 ^ 64 + ((b + 2 ^ 63) mod 2 ^ 64 - 2 ^ 63)) by lia.
  rewrite Zplus_mod_idemp_l.
  replace (a + 2 ^ 63 + ((b + 2 ^ 63) mod 2 ^ 64 - 2 ^ 63))
    with ((b + 2 ^ 63) mod 2 ^ 64 + a) by lia.
  rewrite Zplus_mod_idemp_l. f_equal. lia.
Qed.

(** ** Induction on trees *)

Lemma FileEntry_ind (P : FileEntry -> Prop) :
  (forall entry, Forall P (Children entry) -> P entry) ->
  forall entry, P entry.
Proof.
  intros step. fix IH 1. intros [p d s m t c children].
  apply step. simpl.
  induction children as [|child rest IHrest]; constructor; [apply IH | exact IHrest].
Qed.

Lemma entriesOf_unfold (entry : FileEntry) :
  entriesOf entry = entry :: flat_map entriesOf (Children entry).
Proof. destruct entry; reflexivity. Qed.

Lemma filesOf_unfold (entry : FileEntry) :
  filesOf entry =
  if negb (IsDir entry) then [entry] else flat_map filesOf (Children entry).
Proof. destruct entry; reflexivity. Qed.

(** ** The tree build *)

Section Build.
Variable rt : Runtime.
Variable filter : Filter.

(** What the loop over the listed names returns: an error and no entry, or
    the directory entry with the loaded children appended in order. *)
Lemma loadChildren_result load path entries entry r :
  loadChildren load path entries entry = Some r ->
  (exists err, r = (None, Some err))
  \/ (exists children,
        r = (Some (setChildren entry (Children entry ++ children)), None)
        /\ Forall (fun child => exists p, load p = Some (Some child, None)) children).
Proof.
  revert entry. induction entries as [|item rest IH]; intros entry; simpl.
  - intros [= <-]. right. exists []. split; [|constructor].
    rewrite app_nil_r. destruct entry; reflexivity.
  - destruct (load (Filepath.Join path item)) as [[child [err|]]|] eqn:Hload;
      [intros [= <-]; left; eauto | | discriminate].
    destruct child as [c|]; intros Hrest; apply IH in Hrest.
    + destruct Hrest as [Herr | (children & -> & Hall)]; [left; exact Herr|].
      right. exists (c :: children). simpl. split.
      * unfold setChildren; simpl. now rewrite <- app_assoc.
      * constructor; eauto.
    + exact Hrest.
Qed.

(** The shape of every result of [loadDirectory]. *)
Lemma loadDirectory_result fuel path r :
  loadDirectory rt filter fuel path = Some r ->
  (exists err, r = (None, Some err))
  \/ (r = (None, None) /\ exists info,
        os_Stat rt path = inl info /\ ShouldInclude rt filter path = false)
  \/ (exists info root,
        r = (Some root, None)
        /\ os_Stat rt path = inl info /\ ShouldInclude rt filter path = true
        /\ Path root = path /\ IsDir root = info_IsDir info
        /\ Size root = info_Size info /\ Mode root = info_Mode info
        /\ ModTime root = info_ModTime info).
Proof.
  destruct fuel as [|fuel]; simpl; [discriminate|].
  destruct (os_Stat rt path) as [info|err] eqn:Hstat; [|intros [= <-]; left; eauto].
  destruct (ShouldInclude rt filter path) eqn:Hinc; simpl;
    [|intros [= <-]; right; left; eauto].
  destruct (info_IsDir info) eqn:Hdir; simpl.
  - destruct (os_ReadDir rt path) as [entries|err]; [|intros [= <-]; left; eauto].
    intros Hloop. apply loadChildren_result in Hloop.
    destruct Hloop as [Herr | (children & -> & _)]; [left; exact Herr|].
    right; right. exists info. eexists. split; [reflexivity|].
    simpl. rewrite Hdir. auto 10.
  - destruct (os_ReadFile rt path) as [content|err]; intros [= <-]; [|left; eauto].
    right; right. exists info. eexists. split; [reflexivity|].
    simpl. rewrite Hdir. auto 10.
Qed.

(** Every tree that is built satisfies the invariant of the data model. *)
Lemma loadDirectory_invariant fuel :
  forall path root err,
    loadDirectory rt filter fuel path = Some (Some root, err) ->
    treeInvariant root.
Proof.
  induction fuel as [|fuel IH]; intros path root err; simpl; [discriminate|].
  destruct (os_Stat rt path) as [info|e]; [|discriminate].
  destruct (ShouldInclude rt filter path); simpl; [|discriminate].
  destruct (info_IsDir info) eqn:Hdir; simpl.
  - destruct (os_ReadDir rt path) as [entries|e]; [|discriminate].
    intros Hloop. apply loadChildren_result in Hloop.
    destruct Hloop as [(e & [=]) | (children & [= -> ->] & Hall)].
    unfold treeInvariant. rewrite entriesOf_unfold. simpl. constructor.
    + split; simpl; [reflexivity | congruence].
    + apply Forall_flat_map. eapply Forall_impl; [exact Hall|].
      intros child (p & Hp). exact (IH _ _ _ Hp).
  - destruct (os_ReadFile rt path) as [content|e]; intros [= <- <-].
    unfold treeInvariant. rewrite entriesOf_unfold. simpl. constructor; [|constructor].
    split; simpl; [congruence | reflexivity].
Qed.

End Build.

(** ** The root of the built tree *)

(** C1, as the code has it: the filter is consulted for the root as for any
    other path. For every input path that the filter accepts, a build that
    returns without an error returns an entry, never nil, that stands for
    the input path itself: its path is the input path and it carries what
    the stat of that path reports. For an input path that the filter
    rejects the build returns no entry. *)
Theorem root_entry_follows_the_filter rt filter fuel root info r :
  os_Stat rt root = inl info ->
  loadDirectory rt filter fuel root = Some r ->
  snd r = None ->
  if ShouldInclude rt filter root then
    exists entry,
      fst r = Some entry
      /\ Path entry = root
      /\ IsDir entry = info_IsDir info
      /\ Size entry = info_Size info
      /\ Mode entry = info_Mode info
      /\ ModTime entry = info_ModTime info
  else fst r = None.
Proof.
  intros Hstat Hload Hnoerr.
  apply loadDirectory_result in Hload.
  destruct Hload as [(err & ->) | [(-> & info' & _ & Hrej) | (info' & entry & -> & Hstat' & Hinc & H)]].
  - discriminate.
  - rewrite Hrej. reflexivity.
  - rewrite Hinc. rewrite Hstat in Hstat'. injection Hstat' as <-.
    exists entry. split; [reflexivity | exact H].
Qed.

Lemma root_entry_follows_the_filter_witness :
  exists entry,
    loadDirectory Fixture.world (Fixture.filterOf ".") 8 "." = Some (Some entry, None)
    /\ Path entry = "." /\ IsDir entry = true.
Proof.
  pose (r := (Fixture.treeOf ".", @None error)).
  assert (Hload : loadDirectory Fixture.world (Fixture.filterOf ".") 8 "." = Some r)
    by (vm_compute; reflexivity).
  pose proof (root_entry_follows_the_filter Fixture.world (Fixture.filterOf ".") 8 "."
                (mkFileInfo true 4096 (Z.shiftl 1 31 + 493) 0) r
                eq_refl Hload eq_refl) as Hroot.
  change (ShouldInclude Fixture.world (Fixture.filterOf ".") ".") with true in Hroot.
  destruct Hroot as (entry & Hfst & Hpath & Hdir & _).
  exists entry. split; [|split; assumption].
  rewrite Hload. unfold r in *. simpl in Hfst. rewrite Hfst. reflexivity.
Defined.

(** C1 as stated fails: the sample holds a directory named [.git]; built
    with the default flags from that directory, the tree has no root. *)
Lemma root_named_git_is_omitted :
  (exists info, os_Stat Fixture.world ".git" = inl info /\ info_IsDir info = true)
  /\ forall fuel,
       loadDirectory Fixture.world (Fixture.filterOf ".git") (S fuel) ".git"
       = Some (None, None).
Proof.
  split.
  - eexists. split; reflexivity.
  - intros fuel. reflexivity.
Qed.

(** ** The nil root in the entry point *)

(** C5: when the filter rejects the root path, [loadDirectory] returns a
    nil entry and a nil error, and [RunE], which goes on to call
    [getTotalFiles] on that entry, panics on the nil pointer: it neither
    prints nor returns an error. *)
Theorem rejected_root_panics rt flags dir rest filter info fuel :
  NewFilter rt dir (flag_includeGitIgnore flags) (flag_includeGit flags) = inl filter ->
  os_Stat rt dir = inl info ->
  ShouldInclude rt filter dir = false ->
  loadDirectory rt filter (S fuel) dir = Some (None, None)
  /\ callOn getTotalFiles None = Panicked
  /\ RunE rt flags (dir :: rest) (S fuel) = Some Panicked.
Proof.
  intros Hnew Hstat Hrej.
  assert (Hload : loadDirectory rt filter (S fuel) dir = Some (None, None)).
  { simpl. rewrite Hstat, Hrej. reflexivity. }
  split; [exact Hload|]. split; [reflexivity|].
  unfold RunE. rewrite Hnew, Hload. reflexivity.
Qed.

Lemma rejected_root_panics_witness :
  Filepath.Base ".git" = ".git"
  /\ RunE Fixture.world defaultFlags [".git"] 8 = Some Panicked.
Proof.
  split; [reflexivity|].
  apply (rejected_root_panics Fixture.world defaultFlags ".git" []
           (Fixture.filterOf ".git") (mkFileInfo true 4096 (Z.shiftl 1 31 + 493) 0) 7);
    reflexivity.
Defined.

(** ** The invariant of the data model *)

(** C10: in every tree the build returns, the root and every entry below
    it satisfy the invariant of the data model: a directory entry has no
    content and a file entry has no children. *)
Theorem built_tree_invariant rt filter fuel path root err :
  loadDirectory rt filter fuel path = Some (Some root, err) ->
  forall entry,
    In entry (entriesOf root) ->
    (IsDir entry = true -> Content entry = [])
    /\ (IsDir entry = false -> Children entry = []).
Proof.
  intros Hload entry Hentry.
  pose proof (loadDirectory_invariant rt filter fuel path root err Hload) as Hinv.
  unfold treeInvariant in Hinv.
  exact (proj1 (List.Forall_forall entryInvariant (entriesOf root)) Hinv entry Hentry).
Qed.

Lemma built_tree_invariant_witness :
  exists root,
    Fixture.treeOf "." = Some root
    /\ map Path (entriesOf root) = ["."; "a.txt"; "sub"; "sub/b.txt"]
    /\ forall entry, In entry (entriesOf root) -> entryInvariant entry.
Proof.
  destruct (Fixture.treeOf ".") as [root|] eqn:Htree; [|vm_compute in Htree; discriminate].
  exists root. split; [reflexivity|]. split.
  - vm_compute in Htree. injection Htree as <-. reflexivity.
  - apply (built_tree_invariant Fixture.world (Fixture.filterOf ".") 8 "." root None).
    unfold Fixture.treeOf in Htree.
    destruct (loadDirectory Fixture.world (Fixture.filterOf ".") 8 ".")
      as [[[root'|] [e|]]|]; try discriminate.
    injection Htree as ->. reflexivity.
Defined.

(** ** Failures during the walk *)

Section Failures.
Variable rt : Runtime.
Variable filter : Filter.

(** The loop stops at the first child whose load returns an error, and
    returns that error with no entry. *)
Lemma loadChildren_stops load path before item after entry err :
  Forall (fun name => exists child, load (Filepath.Join path name) = Some (child, None)) before ->
  load (Filepath.Join path item) = Some (None, Some err) ->
  loadChildren load path (before ++ item :: after) entry = Some (None, Some err).
Proof.
  intros Hbefore Hitem. revert entry.
  induction Hbefore as [|name before (child & Hname) _ IH]; intros entry; simpl.
  - rewrite Hitem. reflexivity.
  - rewrite Hname. destruct child; apply IH.
Qed.

(** A result obtained within some budget is the result for any larger one. *)
Lemma loadChildren_mono (load1 load2 : string -> option loadResult) path entries :
  (forall p r, load1 p = Some r -> load2 p = Some r) ->
  forall entry r,
    loadChildren load1 path entries entry = Some r ->
    loadChildren load2 path entries entry = Some r.
Proof.
  intros Hle. induction entries as [|item rest IH]; intros entry r; simpl; [auto|].
  destruct (load1 (Filepath.Join path item)) as [[child e]|] eqn:H1; [|discriminate].
  rewrite (Hle _ _ H1). destruct e; [auto|]. destruct child; apply IH.
Qed.

Lemma loadDirectory_mono fuel :
  forall fuel' path r,
    (fuel <= fuel')%nat ->
    loadDirectory rt filter fuel path = Some r ->
    loadDirectory rt filter fuel' path = Some r.
Proof.
  induction fuel as [|fuel IH]; intros fuel' path r Hle; [discriminate|].
  destruct fuel' as [|fuel']; [lia|]. simpl.
  destruct (os_Stat rt path) as [info|]; [|auto].
  destruct (negb (ShouldInclude rt filter path)); [auto|].
  destruct (negb (info_IsDir info)); [auto|].
  destruct (os_ReadDir rt path) as [entries|]; [|auto].
  apply loadChildren_mono. intros p r'. apply IH. lia.
Qed.

Lemma failureMessage_names kind path cause :
  exists before after, failureMessage kind path cause = before +:+ path +:+ after.
Proof. destruct kind; eexists; eexists; reflexivity. Qed.

(** C7: whenever the walk comes to a path whose stat fails, to an included
    file whose read fails or to an included directory whose listing fails,
    the build returns the error made for that path, whose message holds
    the path, and returns no entry with it: nothing of the tree built so
    far is returned, and the file is not skipped. *)
Theorem walk_failure_is_fatal depth root kind path cause :
  WalkFails rt filter depth root kind path cause ->
  (forall fuel, (depth <= fuel)%nat ->
     loadDirectory rt filter fuel root
     = Some (None, Some (failureMessage kind path cause)))
  /\ exists before after, failureMessage kind path cause = before +:+ path +:+ after.
Proof.
  intros Hwalk. split; [|apply failureMessage_names].
  intros fuel Hle. apply (loadDirectory_mono depth); [exact Hle|]. clear fuel Hle.
  induction Hwalk as
    [ depth root cause Hstat
    | depth root info cause Hstat Hinc Hdir Hread
    | depth root info cause Hstat Hinc Hdir Hlist
    | depth root info before item after kind path cause Hstat Hinc Hdir Hlist Hbefore _ IH ];
    simpl; rewrite Hstat; try (rewrite Hinc, Hdir; simpl).
  - reflexivity.
  - rewrite Hread. reflexivity.
  - rewrite Hlist. reflexivity.
  - rewrite Hlist. apply loadChildren_stops; assumption.
Qed.

End Failures.

Lemma walk_failure_is_fatal_witness :
  loadDirectory Fixture.world (Fixture.filterOf "bad") 8 "bad"
  = Some (None, Some "failed to read file bad/secret: open bad/secret: permission denied").
Proof.
  refine (proj1 (walk_failure_is_fatal Fixture.world (Fixture.filterOf "bad") 2 "bad"
                   ReadFailure "bad/secret" "open bad/secret: permission denied" _) 8%nat _);
    [|lia].
  apply (WalkFails_child Fixture.world (Fixture.filterOf "bad") 1 "bad"
           (mkFileInfo true 4096 (Z.shiftl 1 31 + 493) 0) ["ok.txt"] "secret" ["z.txt"]);
    try reflexivity.
  - constructor; [|constructor]. eexists. vm_compute. reflexivity.
  - apply (WalkFails_read Fixture.world (Fixture.filterOf "bad") 0 "bad/secret"
             (mkFileInfo false 6 420 0)); reflexivity.
Defined.

(** ** The counters *)

Lemma getTotalFiles_unfold entry :
  getTotalFiles entry =
  if negb (IsDir entry) then 1
  else fold_left (fun total child => wrap64 (total + getTotalFiles child)) (Children entry) 0.
Proof. destruct entry; reflexivity. Qed.

Lemma getTotalSize_unfold entry :
  getTotalSize entry =
  if negb (IsDir entry) then Size entry
  else fold_left (fun total child => wrap64 (total + getTotalSize child)) (Children entry) 0.
Proof. destruct entry; reflexivity. Qed.

Lemma countFileEntries_unfold entry :
  countFileEntries entry =
  (if IsDir entry then 0 else 1)
  + fold_right Z.add 0 (map countFileEntries (Children entry)).
Proof.
  unfold countFileEntries. rewrite entriesOf_unfold. simpl.
  assert (Hrest : forall l,
    Z.of_nat (length (List.filter (fun e => negb (IsDir e)) (flat_map entriesOf l)))
    = fold_right Z.add 0
        (map (fun e => Z.of_nat (length (List.filter (fun e => negb (IsDir e)) (entriesOf e)))) l)).
  { induction l as [|a l IH]; simpl; [reflexivity|].
    rewrite List.filter_app, length_app, Nat2Z.inj_add, IH. reflexivity. }
  destruct (IsDir entry); simpl length; rewrite <- Hrest; lia.
Qed.

Lemma sumFileSizes_unfold entry :
  sumFileSizes entry =
  (if IsDir entry then 0 else Size entry)
  + fold_right Z.add 0 (map sumFileSizes (Children entry)).
Proof.
  unfold sumFileSizes. rewrite entriesOf_unfold. simpl.
  assert (Hrest : forall l,
    fold_right Z.add 0 (map Size (List.filter (fun e => negb (IsDir e)) (flat_map entriesOf l)))
    = fold_right Z.add 0
        (map (fun e => fold_right Z.add 0
                         (map Size (List.filter (fun e => negb (IsDir e)) (entriesOf e)))) l)).
  { induction l as [|a l IH]; simpl; [reflexivity|].
    rewrite List.filter_app, map_app, fold_right_app, <- IH.
    generalize (map Size (List.filter (fun e => negb (IsDir e)) (flat_map entriesOf l))).
    generalize (map Size (List.filter (fun e => negb (IsDir e)) (entriesOf a))).
    intros xs ys. induction xs as [|x xs IHxs]; simpl; lia. }
  destruct (IsDir entry); simpl; rewrite <- Hrest; lia.
Qed.

(** The tally loop adds, in 64-bit arithmetic, what the children add up to. *)
Lemma tally_loop (f g : FileEntry -> Z) (children : list FileEntry) (a : Z) :
  Forall (fun child => f child = wrap64 (g child)) children ->
  fold_left (fun total child => wrap64 (total + f child)) children (wrap64 a)
  = wrap64 (a + fold_right Z.add 0 (map g children)).
Proof.
  intros Hall. revert a. induction Hall as [|child rest Hchild _ IH]; intros a; simpl.
  - f_equal. lia.
  - rewrite Hchild, wrap64_add, IH. f_equal. lia.
Qed.

Lemma totals_of_tree root :
  treeInvariant root ->
  Forall (fun e => IsDir e = false -> isInt64 (Size e)) (entriesOf root) ->
  getTotalFiles root = wrap64 (countFileEntries root)
  /\ getTotalSize root = wrap64 (sumFileSizes root).
Proof.
  induction root as [entry IH] using FileEntry_ind.
  unfold treeInvariant. rewrite entriesOf_unfold.
  intros Hinv Hsizes.
  apply Forall_cons_1 in Hinv as [[_ Hfile] Hinv].
  apply Forall_cons_1 in Hsizes as [Hsize Hsizes].
  apply Forall_flat_map in Hinv. apply Forall_flat_map in Hsizes.
  rewrite getTotalFiles_unfold, getTotalSize_unfold,
    countFileEntries_unfold, sumFileSizes_unfold.
  destruct (IsDir entry) eqn:Hdir; simpl.
  - assert (Hchildren : Forall (fun c =>
               getTotalFiles c = wrap64 (countFileEntries c)
               /\ getTotalSize c = wrap64 (sumFileSizes c)) (Children entry)).
    { clear -IH Hinv Hsizes. induction IH as [|c cs Hc _ IHcs]; constructor.
      - apply Hc; [exact (Forall_inv Hinv) | exact (Forall_inv Hsizes)].
      - apply IHcs; [exact (Forall_inv_tail Hinv) | exact (Forall_inv_tail Hsizes)]. }
    split.
    + change (fold_left (fun total child => wrap64 (total + getTotalFiles child))
                (Children entry) (wrap64 0)
              = wrap64 (0 + fold_right Z.add 0 (map countFileEntries (Children entry)))).
      apply tally_loop. eapply Forall_impl; [exact Hchildren|]. intros c Hc; apply Hc.
    + change (fold_left (fun total child => wrap64 (total + getTotalSize child))
                (Children entry) (wrap64 0)
              = wrap64 (0 + fold_right Z.add 0 (map sumFileSizes (Children entry)))).
      apply tally_loop. eapply Forall_impl; [exact Hchildren|]. intros c Hc; apply Hc.
  - rewrite (Hfile eq_refl). simpl. rewrite !Z.add_0_r.
    split; [reflexivity | symmetry; apply wrap64_id; exact (Hsize eq_refl)].
Qed.

(** The number and the sizes of files whose read buffers fit together
    within a bound are within that bound. *)
Lemma files_within_buffers (bound : Z) (files : list FileEntry) :
  Forall (fun e => 0 <= Size e) files ->
  fold_right Z.add 0 (map (fun e => Size e + 1) files) <= bound ->
  0 <= Z.of_nat (length files) <= bound
  /\ 0 <= fold_right Z.add 0 (map Size files) <= bound
  /\ Forall (fun e => Size e <= bound) files.
Proof.
  intros Hsizes. revert bound.
  induction Hsizes as [|e files He _ IH]; intros bound Hbound; simpl in *.
  - repeat split; try lia. constructor.
  - destruct (IH (bound - (Size e + 1)) ltac:(lia)) as (Hlen & Hsum & Hall).
    repeat split; try lia.
    constructor; [lia|]. eapply Forall_impl; [exact Hall|]. simpl. intros; lia.
Qed.

(** C9: for every built tree, held in memory as every tree that the build
    returns is, [getTotalFiles] is exactly the number of the non-directory
    entries of the tree and [getTotalSize] exactly the sum of their sizes:
    directories add nothing to either, and both are the result of the
    same recursive tally over the tree. *)
Theorem totals_of_built_tree rt filter fuel path root :
  loadDirectory rt filter fuel path = Some (Some root, None) ->
  heldInMemory root ->
  getTotalFiles root = countFileEntries root
  /\ getTotalSize root = sumFileSizes root.
Proof.
  intros Hload [Hsizes Hbuffers].
  destruct (files_within_buffers (2 ^ 63 - 1) (fileEntriesOf root) Hsizes ltac:(lia))
    as (Hcount & Hsum & Hall).
  assert (Hfiles : Forall (fun e => IsDir e = false -> isInt64 (Size e)) (entriesOf root)).
  { apply List.Forall_forall. intros e He Hfile.
    assert (Hin : In e (fileEntriesOf root)).
    { apply List.filter_In. split; [exact He | now rewrite Hfile]. }
    pose proof (proj1 (List.Forall_forall _ _) Hsizes e Hin) as Hlow.
    pose proof (proj1 (List.Forall_forall _ _) Hall e Hin) as Hhigh.
    simpl in Hlow, Hhigh. unfold isInt64. lia. }
  destruct (totals_of_tree root (loadDirectory_invariant _ _ _ _ _ _ Hload) Hfiles)
    as [-> ->].
  split; apply wrap64_id; unfold isInt64.
  - unfold countFileEntries. fold (fileEntriesOf root). lia.
  - unfold sumFileSizes. fold (fileEntriesOf root). lia.
Qed.

Lemma totals_of_built_tree_witness :
  exists root,
    loadDirectory Fixture.world (Fixture.filterOf ".") 8 "." = Some (Some root, None)
    /\ map Size (fileEntriesOf root) = [5; 5]
    /\ getTotalFiles root = countFileEntries root /\ countFileEntries root = 2
    /\ getTotalSize root = sumFileSizes root /\ sumFileSizes root = 10.
Proof.
  assert (Hload : loadDirectory Fixture.world (Fixture.filterOf ".") 8 "."
                  = Some (Fixture.treeOf ".", None)) by (vm_compute; reflexivity).
  destruct (Fixture.treeOf ".") as [root|] eqn:Htree; [|vm_compute in Htree; discriminate].
  exists root. split; [exact Hload|].
  vm_compute in Htree. injection Htree as <-.
  destruct (totals_of_built_tree _ _ _ _ _ Hload) as (Hfiles & Hsize).
  { split.
    - simpl. repeat (constructor; [vm_compute; discriminate|]). constructor.
    - vm_compute. reflexivity. }
  split; [reflexivity|]. split; [exact Hfiles|]. split; [reflexivity|].
  split; [exact Hsize | reflexivity].
Defined.

(** ** The visibility filter *)

(** C2 fails on the code: the path [.git/hooks/pre-commit] has [.git] as a
    segment and the filter of a default run on [.git/hooks] includes it; the
    tree built from [.git/hooks] holds the file. The check looks for the
    base name [.git] and for the text [/.git/], and a relative path that
    starts with [.git/] has neither. *)
Theorem git_as_first_segment_is_included :
  In ".git" (segments ".git/hooks/pre-commit")
  /\ includeGit (Fixture.filterOf ".git/hooks") = false
  /\ ShouldInclude Fixture.world (Fixture.filterOf ".git/hooks") ".git/hooks/pre-commit" = true
  /\ exists root,
       loadDirectory Fixture.world (Fixture.filterOf ".git/hooks") 8 ".git/hooks"
       = Some (Some root, None)
       /\ map Path (filesOf root) = [".git/hooks/pre-commit"].
Proof.
  split; [left; reflexivity|].
  split; [reflexivity|].
  split; [reflexivity|].
  eexists. split; [vm_compute; reflexivity|]. reflexivity.
Qed.

Lemma Contains_unfold s substr :
  Strings.Contains s substr
  = String.prefix substr s
    || match s with
       | EmptyString => false
       | String _ s' => Strings.Contains s' substr
       end.
Proof. destruct s; reflexivity. Qed.

Lemma prefix_append (s tail : string) : String.prefix s (s +:+ tail) = true.
Proof.
  induction s as [|c s IH]; simpl.
  - destruct tail; reflexivity.
  - change (String c s +:+ tail) with (String c (s +:+ tail)). simpl.
    destruct (ascii_dec c c); [exact IH | congruence].
Qed.

Lemma Contains_inside (before s after : string) :
  Strings.Contains (before +:+ s +:+ after) s = true.
Proof.
  induction before as [|c before IH].
  - change ("" +:+ s +:+ after) with (s +:+ after).
    rewrite Contains_unfold, prefix_append. reflexivity.
  - change (String c before +:+ s +:+ after) with (String c (before +:+ s +:+ after)).
    rewrite Contains_unfold, IH. apply orb_true_r.
Qed.

Lemma list_ascii_of_append (a b : string) :
  list_ascii_of_string (a +:+ b) = (list_ascii_of_string a ++ list_ascii_of_string b)%list.
Proof.
  induction a as [|c a IH]; [reflexivity|].
  change (String c a +:+ b) with (String c (a +:+ b)). simpl. now rewrite IH.
Qed.

Lemma Base_of_trailing_git (before : string) :
  Filepath.Base (before +:+ "/.git") = ".git".
Proof.
  unfold Filepath.Base.
  destruct (String.eqb_spec (before +:+ "/.git") "") as [Hempty|_].
  - destruct before; discriminate.
  - rewrite list_ascii_of_append, rev_app_distr. reflexivity.
Qed.

(** X9: where the check for the .git directory does what its comment says:
    with the .git directory not asked for, a path in which [/.git] is
    followed by nothing or by a slash is excluded, whatever the other
    flags and the ignore file are. *)
Lemma git_after_slash_excluded rt f before after :
  includeGit f = false ->
  after = "" \/ (exists rest, after = "/" +:+ rest) ->
  ShouldInclude rt f (before +:+ "/.git" +:+ after) = false.
Proof.
  intros Hgit Hafter. unfold ShouldInclude. rewrite Hgit. simpl negb. cbv iota zeta.
  destruct Hafter as [-> | (rest & ->)].
  - rewrite append_empty_r, Base_of_trailing_git. reflexivity.
  - destruct (String.eqb _ ".git"); [reflexivity|].
    unfold Filepath.ToSlash.
    change (before +:+ "/.git" +:+ "/" +:+ rest) with (before +:+ "/.git/" +:+ rest).
    rewrite Contains_inside. reflexivity.
Qed.
(** C6, as the code has it: for every path that the check for the .git
    directory, which comes first, does not exclude (the .git directory is
    asked for, or the base name of the path is not [.git] and the path
    does not contain [/.git/]), a failure to compute the path relative to
    the base directory makes [ShouldInclude] return true; the result is a
    boolean, there is no error to return. *)
Theorem rel_failure_includes rt f path cause :
  includeGit f = true
  \/ (Filepath.Base path <> ".git"
      /\ Strings.Contains (Filepath.ToSlash path) "/.git/" = false) ->
  filepath_Rel rt (baseDir f) path = inr cause ->
  ShouldInclude rt f path = true.
Proof.
  unfold ShouldInclude. intros Hgit Hrel. rewrite Hrel.
  destruct Hgit as [-> | [Hbase ->]]; simpl negb; cbv iota zeta.
  - destruct (includeAll f), (gitIgnore f); reflexivity.
  - apply String.eqb_neq in Hbase. rewrite Hbase.
    destruct (includeGit f), (includeAll f), (gitIgnore f); reflexivity.
Qed.

Lemma rel_failure_includes_witness :
  (exists gi, gitIgnore (Fixture.filterOf "proj") = Some gi)
  /\ includeAll (Fixture.filterOf "proj") = false
  /\ ShouldInclude Fixture.world (Fixture.filterOf "proj") "/etc/passwd" = true.
Proof.
  split; [eexists; reflexivity|]. split; [reflexivity|].
  apply (rel_failure_includes Fixture.world (Fixture.filterOf "proj") "/etc/passwd"
           "Rel: can't make /etc/passwd relative to proj");
    [|reflexivity].
  right. split; [|reflexivity]. vm_compute. discriminate.
Defined.

(** C6 as stated fails: relative to the base directory [proj] the rooted
    path [/repo/.git/config] has no relative path, and [ShouldInclude]
    returns false for it, by the check for the .git directory. *)
Lemma rel_failure_under_git_is_excluded :
  (exists cause,
     filepath_Rel Fixture.world (baseDir (Fixture.filterOf "proj")) "/repo/.git/config"
     = inr cause)
  /\ ShouldInclude Fixture.world (Fixture.filterOf "proj") "/repo/.git/config" = false.
Proof. split; [eexists; reflexivity | reflexivity]. Qed.

(** ** The directory diagram *)

Lemma renderDirTree_unfold entry prefix isLast :
  renderDirTree entry prefix isLast =
  let sb :=
    if negb (String.eqb (Path entry) ".") then
      "" +:+ (prefix +:+ (if isLast then "└── " else "├── ")
              +:+ Filepath.Base (Path entry) +:+ LF)
    else "" in
  if IsDir entry then
    renderChildren
      (fun child isLastChild =>
         renderDirTree child
           (if negb (String.eqb (Path entry) ".") then
              if isLast then prefix +:+ "    " else prefix +:+ "│   "
            else prefix) isLastChild)
      (Z.of_nat (length (Children entry))) (Children entry) 0 sb
  else sb.
Proof. destruct entry; reflexivity. Qed.

Lemma diagramLines_unfold ancestors isLast entry :
  diagramLines ancestors isLast entry =
  diagramLine ancestors isLast entry
  :: (if IsDir entry then
        linesBelow (fun last child => diagramLines (ancestors ++ [isLast]) last child)
          (Children entry)
      else []).
Proof. destruct entry; reflexivity. Qed.

(** The loop over the children writes, after what is written already, the
    lines of each child in order; the index test [i == len-1] holds for
    the child that no sibling follows. *)
Lemma renderChildren_lines (render : FileEntry -> bool -> string)
    (lines : bool -> FileEntry -> list string) (children : list FileEntry) :
  Forall (fun child => forall last, render child last = written (lines last child)) children ->
  forall i sb,
    renderChildren render (i + Z.of_nat (length children)) children i sb
    = sb +:+ written (linesBelow lines children).
Proof.
  intros Hall. induction Hall as [|child rest Hchild _ IH]; intros i sb; simpl.
  - symmetry. apply append_empty_r.
  - replace (i + Z.of_nat (S (length rest)))
      with (i + 1 + Z.of_nat (length rest)) by lia.
    assert (Hlast : (i =? i + 1 + Z.of_nat (length rest) - 1)
                    = match rest with [] => true | _ => false end).
    { destruct rest as [|next rest]; simpl length;
        [apply Z.eqb_eq | apply Z.eqb_neq]; lia. }
    rewrite Hlast, IH, Hchild, written_app, append_assoc. reflexivity.
Qed.

Lemma prefix_of_ancestors ancestors isLast :
  written (map indentOf (ancestors ++ [isLast]))
  = written (map indentOf ancestors) +:+ indentOf isLast.
Proof.
  rewrite map_app, written_app. f_equal. simpl. apply append_empty_r.
Qed.

(** An entry that is printed: its line, then the lines below it, the
    prefix being what the ancestors add up to. *)
Lemma renderDirTree_printed entry :
  Path entry <> "." ->
  Forall (fun d => Path d <> ".") (descendantsOf entry) ->
  forall ancestors isLast,
    renderDirTree entry (written (map indentOf ancestors)) isLast
    = written (diagramLines ancestors isLast entry).
Proof.
  induction entry as [entry IH] using FileEntry_ind.
  intros Hpath Hbelow ancestors isLast.
  rewrite renderDirTree_unfold, diagramLines_unfold.
  apply String.eqb_neq in Hpath. rewrite Hpath. cbv zeta. simpl negb. cbv iota.
  assert (Hline : "" +:+ (written (map indentOf ancestors)
                          +:+ (if isLast then "└── " else "├── ")
                          +:+ Filepath.Base (Path entry) +:+ LF)
                  = diagramLine ancestors isLast entry).
  { unfold diagramLine, connectorOf, written. reflexivity. }
  rewrite Hline.
  destruct (IsDir entry).
  - change (written (diagramLine ancestors isLast entry :: ?l))
      with (diagramLine ancestors isLast entry +:+ written l).
    replace (if isLast then written (map indentOf ancestors) +:+ "    "
             else written (map indentOf ancestors) +:+ "│   ")
      with (written (map indentOf (ancestors ++ [isLast])))
      by (rewrite prefix_of_ancestors; destruct isLast; reflexivity).
    refine (renderChildren_lines
              (fun child last =>
                 renderDirTree child (written (map indentOf (ancestors ++ [isLast]))) last)
              (fun last child => diagramLines (ancestors ++ [isLast]) last child)
              (Children entry) _ 0 _).
    unfold descendantsOf in Hbelow. apply Forall_flat_map in Hbelow.
    clear -IH Hbelow. induction IH as [|c cs Hc _ IHcs]; constructor.
    + intros last. apply Forall_inv in Hbelow. rewrite entriesOf_unfold in Hbelow.
      apply Hc; [exact (Forall_inv Hbelow) | exact (Forall_inv_tail Hbelow)].
    + apply IHcs. exact (Forall_inv_tail Hbelow).
  - unfold written. simpl. symmetry. apply append_empty_r.
Qed.

(** C4, as the code has it: the diagram leaves the root out when the path
    of the root is ["."] and prints it first, as a non-last entry, when it
    is any other path; every printed child has the connector of a last
    child exactly when no sibling follows it; and the prefix of a line is
    made of one piece for each printed ancestor, four spaces for a last
    one and a bar with three spaces for any other. *)
Theorem diagram_of_tree root :
  Forall (fun d => Path d <> ".") (descendantsOf root) ->
  renderDirTree root "" false = written (diagramOf root).
Proof.
  intros Hbelow. unfold diagramOf.
  destruct (String.eqb_spec (Path root) ".") as [Hdot|Hpath].
  - rewrite renderDirTree_unfold. rewrite Hdot. cbv zeta. simpl negb. cbv iota.
    destruct (IsDir root); [|reflexivity].
    refine (renderChildren_lines
              (fun child last => renderDirTree child "" last)
              (diagramLines []) (Children root) _ 0 "").
    unfold descendantsOf in Hbelow. apply Forall_flat_map in Hbelow.
    clear -Hbelow. induction (Children root) as [|c cs IHcs]; constructor.
    + intros last. apply Forall_inv in Hbelow. rewrite entriesOf_unfold in Hbelow.
      apply (renderDirTree_printed c (Forall_inv Hbelow) (Forall_inv_tail Hbelow) []).
    + apply IHcs. exact (Forall_inv_tail Hbelow).
  - apply (renderDirTree_printed root Hpath Hbelow []).
Qed.

Lemma diagram_of_tree_witness :
  exists root,
    Fixture.treeOf "." = Some root
    /\ renderDirTree root "" false
       = "├── a.txt" +:+ LF +:+ "└── sub" +:+ LF +:+ "    └── b.txt" +:+ LF.
Proof.
  destruct (Fixture.treeOf ".") as [root|] eqn:Htree; [|vm_compute in Htree; discriminate].
  exists root. split; [reflexivity|].
  vm_compute in Htree. injection Htree as <-.
  rewrite diagram_of_tree; [reflexivity|].
  simpl. repeat (constructor; [discriminate|]). constructor.
Defined.

(** C4 as stated fails: in the diagram of the tree built from the sample
    directory [src] the first line is the line of the root. *)
Lemma root_is_printed :
  exists root,
    loadDirectory Fixture.world (Fixture.filterOf "src") 8 "src" = Some (Some root, None)
    /\ renderDirTree root "" false
       = "├── src" +:+ LF
         +:+ "│   ├── a.go" +:+ LF
         +:+ "│   ├── lib" +:+ LF
         +:+ "│   │   └── b.go" +:+ LF
         +:+ "│   └── z.go" +:+ LF.
Proof. eexists. split; [vm_compute; reflexivity | reflexivity]. Qed.

(** ** The records of the files *)

Lemma find_append {A : Type} (p : A -> bool) (xs ys : list A) :
  List.find p (xs ++ ys)
  = match List.find p xs with Some x => Some x | None => List.find p ys end.
Proof.
  induction xs as [|x xs IH]; simpl; [reflexivity|].
  destruct (p x); [reflexivity | exact IH].
Qed.

Lemma recordsFrom_app hashOf between earlier xs ys :
  recordsFrom hashOf between earlier (xs ++ ys)
  = (recordsFrom hashOf between earlier xs
     ++ recordsFrom hashOf between (earlier ++ xs) ys)%list.
Proof.
  revert earlier. induction xs as [|x xs IH]; intros earlier; simpl.
  - now rewrite app_nil_r.
  - rewrite IH, <- app_assoc. reflexivity.
Qed.

(** The two ways of writing the records have the recursion and the two
    cases of a file in common; what differs is the text between the path
    line and the content. The properties are proved once, for any printer
    of that shape. *)
Section Printer.
Variable hashOf : list byte -> string.
Variable between : FileEntry -> string.
Variable print : FileEntry -> string * gmap string FileHash -> string * gmap string FileHash.

Hypothesis print_dir : forall entry st,
  IsDir entry = true ->
  print entry st = fold_left (fun st child => print child st) (Children entry) st.

Lemma tracks_seen fileHashes earlier entry first :
  tracks hashOf fileHashes earlier ->
  firstWithDigest hashOf earlier entry = Some first ->
  tracks hashOf fileHashes (earlier ++ [entry]).
Proof.
  intros Htracks Hfirst hash. rewrite find_append, Htracks.
  destruct (List.find (fun e => String.eqb (hashOf (Content e)) hash) earlier) eqn:Hfind;
    [reflexivity|].
  simpl. destruct (String.eqb_spec (hashOf (Content entry)) hash) as [<-|_]; [|reflexivity].
  unfold firstWithDigest in Hfirst. congruence.
Qed.

Lemma tracks_fresh fileHashes earlier entry :
  tracks hashOf fileHashes earlier ->
  firstWithDigest hashOf earlier entry = None ->
  tracks hashOf (<[hashOf (Content entry) :=
            {| fh_Path := Path entry; fh_Hash := hashOf (Content entry);
               fh_Content := Content entry |}]> fileHashes)
         (earlier ++ [entry]).
Proof.
  intros Htracks Hnone hash. rewrite find_append. simpl.
  destruct (String.eqb_spec (hashOf (Content entry)) hash) as [<-|Hne].
  - rewrite lookup_insert_eq. unfold firstWithDigest in Hnone. rewrite Hnone. reflexivity.
  - rewrite lookup_insert_ne by exact Hne. rewrite Htracks.
    destruct (List.find _ earlier); reflexivity.
Qed.

Section Deduplicating.

Hypothesis print_file : forall entry w fileHashes,
  IsDir entry = false ->
  print entry (w, fileHashes)
  = match fileHashes !! hashOf (Content entry) with
    | Some existing =>
        (w +:+ (pathLine entry +:+ between entry +:+ identicalLine (fh_Path existing)),
         fileHashes)
    | None =>
        (w +:+ (pathLine entry +:+ between entry +:+ contentBlock entry),
         <[hashOf (Content entry) :=
             {| fh_Path := Path entry; fh_Hash := hashOf (Content entry);
                fh_Content := Content entry |}]> fileHashes)
    end.

Lemma print_records entry :
  forall w fileHashes earlier,
    tracks hashOf fileHashes earlier ->
    exists fileHashes',
      print entry (w, fileHashes)
      = (w +:+ written (recordsFrom hashOf between earlier (filesOf entry)), fileHashes')
      /\ tracks hashOf fileHashes' (earlier ++ filesOf entry).
Proof.
  induction entry as [entry IH] using FileEntry_ind.
  intros w fileHashes earlier Htracks. rewrite filesOf_unfold.
  destruct (IsDir entry) eqn:Hdir; simpl negb; cbv iota.
  - rewrite (print_dir _ _ Hdir). clear Hdir.
    revert w fileHashes earlier Htracks.
    induction IH as [|child rest Hchild _ IHrest]; intros w fileHashes earlier Htracks; simpl.
    + exists fileHashes. rewrite append_empty_r, app_nil_r. auto.
    + destruct (Hchild w fileHashes earlier Htracks) as (hashes1 & -> & Htracks1).
      destruct (IHrest (w +:+ written (recordsFrom hashOf between earlier (filesOf child)))
                  hashes1 _ Htracks1) as (hashes2 & -> & Htracks2).
      exists hashes2. rewrite recordsFrom_app, written_app, append_assoc, app_assoc. auto.
  - rewrite (print_file _ _ _ Hdir). simpl. unfold written. simpl.
    rewrite (Htracks (hashOf (Content entry))).
    change (List.find _ earlier) with (firstWithDigest hashOf earlier entry).
    destruct (firstWithDigest hashOf earlier entry) as [first|] eqn:Hfirst; simpl;
      eexists; rewrite !append_empty_r.
    + split; [reflexivity | eapply tracks_seen; eassumption].
    + split; [reflexivity | apply tracks_fresh; assumption].
Qed.

Lemma tracks_empty : tracks hashOf ∅ [].
Proof. intros hash. simpl. apply lookup_empty. Qed.

Lemma print_records_from_empty entry w :
  fst (print entry (w, ∅))
  = w +:+ written (recordsFrom hashOf between [] (filesOf entry)).
Proof.
  destruct (print_records entry w ∅ [] tracks_empty) as (hashes & -> & _). reflexivity.
Qed.

End Deduplicating.

Section NotDeduplicating.

Hypothesis print_file : forall entry w fileHashes,
  IsDir entry = false ->
  print entry (w, fileHashes) = (w +:+ fullRecord between entry, fileHashes).

Lemma print_full_records entry :
  forall w fileHashes,
    print entry (w, fileHashes)
    = (w +:+ written (map (fullRecord between) (filesOf entry)), fileHashes).
Proof.
  induction entry as [entry IH] using FileEntry_ind.
  intros w fileHashes. rewrite filesOf_unfold.
  destruct (IsDir entry) eqn:Hdir; simpl negb; cbv iota.
  - rewrite (print_dir _ _ Hdir). clear Hdir. revert w.
    induction IH as [|child rest Hchild _ IHrest]; intros w; simpl.
    + now rewrite append_empty_r.
    + rewrite Hchild, IHrest, map_app, written_app, append_assoc. reflexivity.
  - rewrite (print_file _ _ _ Hdir). unfold written. simpl.
    now rewrite append_empty_r.
Qed.

End NotDeduplicating.
End Printer.

(** *** The printer of cmd/flatten/main.go *)

Lemma printFlattenedOutput_unfold rt noDedup entry w fileHashes :
  printFlattenedOutput rt noDedup entry (w, fileHashes) =
  if negb (IsDir entry) then
    if noDedup then ((w +:+ pathLine entry) +:+ contentBlock entry, fileHashes)
    else
      match fileHashes !! calculateFileHash rt (Content entry) with
      | Some existing =>
          ((w +:+ pathLine entry) +:+ identicalLine (fh_Path existing), fileHashes)
      | None =>
          ((w +:+ pathLine entry) +:+ contentBlock entry,
           <[calculateFileHash rt (Content entry) :=
               {| fh_Path := Path entry; fh_Hash := calculateFileHash rt (Content entry);
                  fh_Content := Content entry |}]> fileHashes)
      end
  else
    fold_left (fun st child => printFlattenedOutput rt noDedup child st)
      (Children entry) (w, fileHashes).
Proof. destruct entry; reflexivity. Qed.

Lemma printFlattenedOutput_dir rt noDedup entry st :
  IsDir entry = true ->
  printFlattenedOutput rt noDedup entry st
  = fold_left (fun st child => printFlattenedOutput rt noDedup child st) (Children entry) st.
Proof.
  intros Hdir. destruct st as [w fileHashes].
  rewrite printFlattenedOutput_unfold, Hdir. reflexivity.
Qed.

(** *** The printer with metadata *)

Section MetadataLines.
Variable rt : Runtime.
Variable mrt : MainMeta.MetaRuntime.
Variable flags : MainMeta.MetaFlags.

Ltac appends_cases :=
  intros w;
  repeat match goal with
         | |- context [if ?c then _ else _] => destruct c
         | |- context [match ?x with inl _ => _ | inr _ => _ end] => destruct x
         | |- context [match ?x with Some _ => _ | None => _ end] => destruct x
         | |- context [let '(_, _) := ?x in _] => destruct x
         end;
  rewrite ?append_assoc, ?append_empty_r; reflexivity.

Lemma writeLastUpdated_appends entry : appends (MainMeta.writeLastUpdated mrt flags entry).
Proof. unfold MainMeta.writeLastUpdated. appends_cases. Qed.

Lemma writeMode_appends entry : appends (MainMeta.writeMode mrt flags entry).
Proof. unfold MainMeta.writeMode. appends_cases. Qed.

Lemma writeSize_appends entry : appends (MainMeta.writeSize flags entry).
Proof. unfold MainMeta.writeSize. appends_cases. Qed.

Lemma writeMimeType_appends entry : appends (MainMeta.writeMimeType mrt flags entry).
Proof. unfold MainMeta.writeMimeType. appends_cases. Qed.

Lemma writeSymlinkTarget_appends entry : appends (MainMeta.writeSymlinkTarget mrt flags entry).
Proof. unfold MainMeta.writeSymlinkTarget. appends_cases. Qed.

Lemma writeOwnership_appends entry : appends (MainMeta.writeOwnership mrt flags entry).
Proof. unfold MainMeta.writeOwnership. appends_cases. Qed.

Lemma writeChecksum_appends entry : appends (MainMeta.writeChecksum rt flags entry).
Proof. unfold MainMeta.writeChecksum. appends_cases. Qed.

Ltac peel write_appends :=
  match goal with
  | |- ?write ?inner = ?w +:+ ?write ?inner' =>
      rewrite (write_appends inner), (write_appends inner'), <- append_assoc;
      f_equal
  end.

Lemma metadataLines_appends entry : appends (MainMeta.metadataLines rt mrt flags entry).
Proof.
  intros w. unfold MainMeta.metadataLines. cbv zeta.
  peel (writeChecksum_appends entry).
  peel (writeOwnership_appends entry).
  peel (writeSymlinkTarget_appends entry).
  peel (writeMimeType_appends entry).
  peel (writeSize_appends entry).
  peel (writeMode_appends entry).
  apply writeLastUpdated_appends.
Qed.

End MetadataLines.

Lemma printFlattenedOutput_meta_unfold rt mrt flags entry w fileHashes :
  MainMeta.printFlattenedOutput rt mrt flags entry (w, fileHashes) =
  if negb (IsDir entry) then
    if MainMeta.noFileDeduplication flags then
      (MainMeta.metadataLines rt mrt flags entry (w +:+ pathLine entry)
       +:+ contentBlock entry, fileHashes)
    else
      match fileHashes !! calculateFileHash rt (Content entry) with
      | Some existing =>
          (MainMeta.metadataLines rt mrt flags entry (w +:+ pathLine entry)
           +:+ identicalLine (fh_Path existing), fileHashes)
      | None =>
          (MainMeta.metadataLines rt mrt flags entry (w +:+ pathLine entry)
           +:+ contentBlock entry,
           <[calculateFileHash rt (Content entry) :=
               {| fh_Path := Path entry; fh_Hash := calculateFileHash rt (Content entry);
                  fh_Content := Content entry |}]> fileHashes)
      end
  else
    fold_left (fun st child => MainMeta.printFlattenedOutput rt mrt flags child st)
      (Children entry) (w, fileHashes).
Proof. destruct entry; reflexivity. Qed.

Lemma printFlattenedOutput_meta_dir rt mrt flags entry st :
  IsDir entry = true ->
  MainMeta.printFlattenedOutput rt mrt flags entry st
  = fold_left (fun st child => MainMeta.printFlattenedOutput rt mrt flags child st)
      (Children entry) st.
Proof.
  intros Hdir. destruct st as [w fileHashes].
  rewrite printFlattenedOutput_meta_unfold, Hdir. reflexivity.
Qed.

Lemma metadata_after_path rt mrt flags entry w tail :
  MainMeta.metadataLines rt mrt flags entry (w +:+ pathLine entry) +:+ tail
  = w +:+ (pathLine entry +:+ MainMeta.metadataLines rt mrt flags entry "" +:+ tail).
Proof. now rewrite metadataLines_appends, !append_assoc. Qed.

(** C3: with deduplication enabled and the map of digests empty at the
    start, what is written for a tree is, after what the builder holds
    already, the records of its files in the order of the depth-first
    traversal, where the record of a file is its path line, its metadata
    lines if any, and then: its content in a fenced block when no file
    before it has its digest, and otherwise nothing but the line
    [Contents are identical to] with the path of the first file that has
    that digest. This holds of the printer of cmd/flatten/main.go and of the
    printer with metadata. *)
Theorem first_seen_wins rt mrt flags entry w :
  MainMeta.noFileDeduplication flags = false ->
  fst (printFlattenedOutput rt false entry (w, ∅))
  = w +:+ written (recordsFrom (sha256_hex rt) (fun _ => "") [] (filesOf entry))
  /\ fst (MainMeta.printFlattenedOutput rt mrt flags entry (w, ∅))
     = w +:+ written (recordsFrom (sha256_hex rt)
                        (fun e => MainMeta.metadataLines rt mrt flags e "") []
                        (filesOf entry)).
Proof.
  intros Hdedup. split.
  - apply (print_records_from_empty (sha256_hex rt) (fun _ => "")
             (printFlattenedOutput rt false)).
    + intros e st. apply printFlattenedOutput_dir.
    + intros e w0 hashes Hfile.
      rewrite printFlattenedOutput_unfold, Hfile. simpl negb. cbv iota.
      unfold calculateFileHash.
      destruct (hashes !! sha256_hex rt (Content e)); rewrite append_assoc; reflexivity.
  - apply (print_records_from_empty (sha256_hex rt)
             (fun e => MainMeta.metadataLines rt mrt flags e "")
             (MainMeta.printFlattenedOutput rt mrt flags)).
    + intros e st. apply printFlattenedOutput_meta_dir.
    + intros e w0 hashes Hfile.
      rewrite printFlattenedOutput_meta_unfold, Hfile, Hdedup. simpl negb. cbv iota.
      unfold calculateFileHash.
      destruct (hashes !! sha256_hex rt (Content e)); rewrite metadata_after_path;
        reflexivity.
Qed.

Lemma first_seen_wins_witness :
  exists root,
    Fixture.treeOf "src" = Some root
    /\ map Path (filesOf root) = ["src/a.go"; "src/lib/b.go"; "src/z.go"]
    /\ fst (printFlattenedOutput Fixture.world false root ("", ∅))
       = written
           [ LF +:+ "- path: src/a.go" +:+ LF
             +:+ "- content:" +:+ LF +:+ "```" +:+ LF +:+ "package a" +:+ LF +:+ "```" +:+ LF;
             LF +:+ "- path: src/lib/b.go" +:+ LF
             +:+ "- content:" +:+ LF +:+ "```" +:+ LF +:+ "package b" +:+ LF +:+ "```" +:+ LF;
             LF +:+ "- path: src/z.go" +:+ LF
             +:+ "- content: Contents are identical to src/a.go" +:+ LF ].
Proof.
  destruct (Fixture.treeOf "src") as [root|] eqn:Htree; [|vm_compute in Htree; discriminate].
  exists root. split; [reflexivity|].
  destruct (first_seen_wins Fixture.world Fixture.metaWorld (Fixture.sizeAndChecksum false)
              root "" eq_refl) as [Hplain _].
  rewrite Hplain. vm_compute in Htree. injection Htree as <-.
  split; reflexivity.
Defined.

(** C8: with deduplication disabled, what is written for a tree is, after
    what the builder holds already, one record for each of its files in
    the order of the traversal, each with the whole content of the file in
    a fenced block, equal digests or not; no reference line is written and
    the map of digests is left as it was. This holds of both printers. *)
Theorem no_dedup_writes_every_content rt mrt flags entry w fileHashes :
  MainMeta.noFileDeduplication flags = true ->
  printFlattenedOutput rt true entry (w, fileHashes)
  = (w +:+ written (map (fullRecord (fun _ => "")) (filesOf entry)), fileHashes)
  /\ MainMeta.printFlattenedOutput rt mrt flags entry (w, fileHashes)
     = (w +:+ written (map (fullRecord (fun e => MainMeta.metadataLines rt mrt flags e ""))
                         (filesOf entry)),
        fileHashes).
Proof.
  intros Hnodedup. split.
  - apply (print_full_records (fun _ => "") (printFlattenedOutput rt true)).
    + intros e st. apply printFlattenedOutput_dir.
    + intros e w0 hashes Hfile.
      rewrite printFlattenedOutput_unfold, Hfile. simpl negb. cbv iota.
      unfold fullRecord. rewrite append_assoc. reflexivity.
  - apply (print_full_records (fun e => MainMeta.metadataLines rt mrt flags e "")
             (MainMeta.printFlattenedOutput rt mrt flags)).
    + intros e st. apply printFlattenedOutput_meta_dir.
    + intros e w0 hashes Hfile.
      rewrite printFlattenedOutput_meta_unfold, Hfile, Hnodedup. simpl negb. cbv iota.
      unfold fullRecord. rewrite metadata_after_path. reflexivity.
Qed.

Lemma no_dedup_writes_every_content_witness :
  exists root,
    Fixture.treeOf "src" = Some root
    /\ fst (MainMeta.printFlattenedOutput Fixture.world Fixture.metaWorld
              (Fixture.sizeAndChecksum true) root ("", ∅))
       = written
           [ LF +:+ "- path: src/a.go" +:+ LF
             +:+ "- size: 9 bytes" +:+ LF +:+ "- sha256: package a" +:+ LF
             +:+ "- content:" +:+ LF +:+ "```" +:+ LF +:+ "package a" +:+ LF +:+ "```" +:+ LF;
             LF +:+ "- path: src/lib/b.go" +:+ LF
             +:+ "- size: 9 bytes" +:+ LF +:+ "- sha256: package b" +:+ LF
             +:+ "- content:" +:+ LF +:+ "```" +:+ LF +:+ "package b" +:+ LF +:+ "```" +:+ LF;
             LF +:+ "- path: src/z.go" +:+ LF
             +:+ "- size: 9 bytes" +:+ LF +:+ "- sha256: package a" +:+ LF
             +:+ "- content:" +:+ LF +:+ "```" +:+ LF +:+ "package a" +:+ LF +:+ "```" +:+ LF ].
Proof.
  destruct (Fixture.treeOf "src") as [root|] eqn:Htree; [|vm_compute in Htree; discriminate].
  exists root. split; [reflexivity|].
  destruct (no_dedup_writes_every_content Fixture.world Fixture.metaWorld
              (Fixture.sizeAndChecksum true) root "" ∅ eq_refl) as [_ Hmeta].
  rewrite Hmeta. vm_compute in Htree. injection Htree as <-. reflexivity.
Defined.

(** * Further properties of the code *)

(** ** Where the entries of a built tree come from *)

Section Provenance.
Variable rt : Runtime.
Variable filter : Filter.

(** Every entry of a built tree was itself returned by a call of
    [loadDirectory]: what holds of every returned root holds of every
    entry. *)
Lemma loadDirectory_entries (P : FileEntry -> Prop) :
  (forall fuel path root,
     loadDirectory rt filter fuel path = Some (Some root, None) -> P root) ->
  forall fuel path root err,
    loadDirectory rt filter fuel path = Some (Some root, err) ->
    Forall P (entriesOf root).
Proof.
  intros Hroot. induction fuel as [|fuel IH]; intros path root err Hload; [discriminate|].
  assert (Herr : err = None).
  { destruct (loadDirectory_result rt filter _ _ _ Hload)
      as [(e & [=]) | [([=] & _) | (i & r & [= _ ->] & _)]]. reflexivity. }
  subst err. rewrite entriesOf_unfold. constructor; [exact (Hroot _ _ _ Hload)|].
  simpl in Hload.
  destruct (os_Stat rt path) as [info|e]; [|discriminate].
  destruct (ShouldInclude rt filter path); simpl in Hload; [|discriminate].
  destruct (info_IsDir info); simpl in Hload.
  - destruct (os_ReadDir rt path) as [names|e]; [|discriminate].
    apply loadChildren_result in Hload.
    destruct Hload as [(e & [=]) | (children & [= ->] & Hall)].
    simpl. apply Forall_flat_map. eapply Forall_impl; [exact Hall|].
    intros child (p & Hp). exact (IH _ _ _ Hp).
  - destruct (os_ReadFile rt path) as [content|e]; [|discriminate].
    injection Hload as <-. constructor.
Qed.

(** X1: every entry of a built tree, at any depth, has a path that the
    filter accepts and whose stat succeeded, and carries what that stat
    reported: nothing that the filter rejects is in the tree. *)
Theorem built_entries_pass_the_filter fuel path root err :
  loadDirectory rt filter fuel path = Some (Some root, err) ->
  forall entry,
    In entry (entriesOf root) ->
    ShouldInclude rt filter (Path entry) = true
    /\ exists info,
         os_Stat rt (Path entry) = inl info
         /\ IsDir entry = info_IsDir info
         /\ Size entry = info_Size info
         /\ Mode entry = info_Mode info
         /\ ModTime entry = info_ModTime info.
Proof.
  intros Hload entry Hentry.
  set (P := fun entry : FileEntry =>
              ShouldInclude rt filter (Path entry) = true
              /\ exists info,
                   os_Stat rt (Path entry) = inl info
                   /\ IsDir entry = info_IsDir info
                   /\ Size entry = info_Size info
                   /\ Mode entry = info_Mode info
                   /\ ModTime entry = info_ModTime info).
  assert (Hall : Forall P (entriesOf root)).
  { apply (loadDirectory_entries P) with (fuel := fuel) (path := path) (err := err);
      [|exact Hload].
    clear. intros fuel path root Hload.
    destruct (loadDirectory_result rt filter _ _ _ Hload)
      as [(e & [=]) | [([=] & _) | (info & r & [= <-] & Hstat & Hinc & Hpath & Hfields)]].
    unfold P. rewrite Hpath. split; [exact Hinc|].
    exists info. split; [exact Hstat | exact Hfields]. }
  exact (proj1 (List.Forall_forall P (entriesOf root)) Hall entry Hentry).
Qed.

(** X2: the content of every file entry of a built tree is what reading
    the file at its path returns, whole. *)
Theorem built_files_hold_what_was_read fuel path root err :
  loadDirectory rt filter fuel path = Some (Some root, err) ->
  forall entry,
    In entry (entriesOf root) ->
    IsDir entry = false ->
    os_ReadFile rt (Path entry) = inl (Content entry).
Proof.
  intros Hload.
  set (P := fun entry : FileEntry =>
              IsDir entry = false -> os_ReadFile rt (Path entry) = inl (Content entry)).
  apply (proj1 (List.Forall_forall P (entriesOf root))).
  apply (loadDirectory_entries P) with (fuel := fuel) (path := path) (err := err);
    [|exact Hload].
  clear. unfold P. intros [|fuel] path root Hload; [discriminate|]. simpl in Hload.
  destruct (os_Stat rt path) as [info|e]; [|discriminate].
  destruct (ShouldInclude rt filter path); simpl in Hload; [|discriminate].
  destruct (info_IsDir info) eqn:Hdir; simpl in Hload.
  - destruct (os_ReadDir rt path) as [names|e]; [|discriminate].
    apply loadChildren_result in Hload.
    destruct Hload as [(e & [=]) | (children & [= ->] & _)].
    simpl. discriminate.
  - destruct (os_ReadFile rt path) as [content|e] eqn:Hread; [|discriminate].
    injection Hload as <-. intros _. exact Hread.
Qed.

(** The children that the loop appends: the listed names that the filter
    accepts, joined to the path, in the order of the listing. *)
Lemma loadChildren_paths fuel path names :
  forall entry root,
    loadChildren (loadDirectory rt filter fuel) path names entry = Some (Some root, None) ->
    map Path (Children root)
    = (map Path (Children entry)
       ++ map (Filepath.Join path)
            (List.filter (fun name => ShouldInclude rt filter (Filepath.Join path name)) names))%list.
Proof.
  induction names as [|name rest IH]; intros entry root; simpl.
  - intros [= <-]. now rewrite app_nil_r.
  - destruct (loadDirectory rt filter fuel (Filepath.Join path name))
      as [[child [e|]]|] eqn:Hchild; try discriminate.
    destruct (loadDirectory_result rt filter _ _ _ Hchild)
      as [(e & [=]) | [([= ->] & i & _ & Hrej) | (i & c & [= ->] & _ & Hinc & Hpath & _)]].
    + rewrite Hrej. apply IH.
    + rewrite Hinc. intros Hrest. rewrite (IH _ _ Hrest). simpl.
      rewrite map_app, <- app_assoc. simpl. rewrite Hpath. reflexivity.
Qed.

(** X3: the children of a built directory entry are the entries of the
    listed names that the filter accepts, in the order of the listing; a
    directory all of whose names are rejected is built with no children. *)
Theorem children_are_the_included_names fuel path root info names :
  loadDirectory rt filter fuel path = Some (Some root, None) ->
  os_Stat rt path = inl info ->
  info_IsDir info = true ->
  os_ReadDir rt path = inl names ->
  map Path (Children root)
  = map (Filepath.Join path)
      (List.filter (fun name => ShouldInclude rt filter (Filepath.Join path name)) names).
Proof.
  destruct fuel as [|fuel]; [discriminate|]. simpl.
  intros Hload Hstat Hdir Hlist. rewrite Hstat, Hlist, Hdir in Hload.
  destruct (ShouldInclude rt filter path); simpl in Hload; [|discriminate].
  exact (loadChildren_paths _ _ _ _ _ Hload).
Qed.

End Provenance.

Lemma built_entries_pass_the_filter_witness :
  exists root,
    Fixture.treeOf "." = Some root
    /\ In ".git" (match os_ReadDir Fixture.world "." with inl names => names | inr _ => [] end)
    /\ forall entry, In entry (entriesOf root) ->
         ShouldInclude Fixture.world (Fixture.filterOf ".") (Path entry) = true.
Proof.
  destruct (Fixture.treeOf ".") as [root|] eqn:Htree; [|vm_compute in Htree; discriminate].
  exists root. split; [reflexivity|]. split; [left; reflexivity|].
  intros entry Hentry.
  refine (proj1 (built_entries_pass_the_filter Fixture.world (Fixture.filterOf ".")
                   8 "." root None _ entry Hentry)).
  unfold Fixture.treeOf in Htree.
  destruct (loadDirectory Fixture.world (Fixture.filterOf ".") 8 ".")
    as [[[root'|] [e|]]|]; try discriminate.
  injection Htree as ->. reflexivity.
Defined.

Lemma built_files_hold_what_was_read_witness :
  exists root,
    Fixture.treeOf "." = Some root
    /\ forall entry, In entry (entriesOf root) -> IsDir entry = false ->
         os_ReadFile Fixture.world (Path entry) = inl (Content entry).
Proof.
  destruct (Fixture.treeOf ".") as [root|] eqn:Htree; [|vm_compute in Htree; discriminate].
  exists root. split; [reflexivity|].
  apply (built_files_hold_what_was_read Fixture.world (Fixture.filterOf ".") 8 "." root None).
  unfold Fixture.treeOf in Htree.
  destruct (loadDirectory Fixture.world (Fixture.filterOf ".") 8 ".")
    as [[[root'|] [e|]]|]; try discriminate.
  injection Htree as ->. reflexivity.
Defined.

Lemma children_are_the_included_names_witness :
  exists root,
    loadDirectory Fixture.world (Fixture.filterOf ".") 8 "." = Some (Some root, None)
    /\ os_ReadDir Fixture.world "." = inl [".git"; "a.txt"; "sub"]
    /\ map Path (Children root) = ["a.txt"; "sub"].
Proof.
  assert (Hload : loadDirectory Fixture.world (Fixture.filterOf ".") 8 "."
                  = Some (Fixture.treeOf ".", None)) by (vm_compute; reflexivity).
  destruct (Fixture.treeOf ".") as [root|] eqn:Htree; [|vm_compute in Htree; discriminate].
  exists root. split; [exact Hload|]. split; [reflexivity|].
  rewrite (children_are_the_included_names Fixture.world (Fixture.filterOf ".") 8 "." root
             (mkFileInfo true 4096 (Z.shiftl 1 31 + 493) 0) [".git"; "a.txt"; "sub"]
             Hload eq_refl eq_refl eq_refl).
  reflexivity.
Defined.

(** ** The entry point: panics and errors *)

(** What the build returns for a directory that the filter rejects. *)
Lemma rejected_root_load rt filter fuel path info r :
  os_Stat rt path = inl info ->
  ShouldInclude rt filter path = false ->
  loadDirectory rt filter fuel path = Some r ->
  r = (None, None).
Proof.
  intros Hstat Hrej Hload. destruct fuel as [|fuel]; [discriminate|].
  simpl in Hload. rewrite Hstat, Hrej in Hload. simpl in Hload. congruence.
Qed.

(** X4: take a run without [--tf] in which the build returns, when the
    filter is created: the calls of the os that it makes return and the
    walk ends within the budget. The run panics in exactly one case: the
    filter was created, the stat of the directory succeeded and the
    filter rejects the directory itself. In every other case [RunE]
    returns, with the output or with an error. *)
Theorem panic_exactly_for_rejected_root rt flags args fuel :
  (forall filter,
     NewFilter rt (dirOf args) (flag_includeGitIgnore flags) (flag_includeGit flags)
     = inl filter ->
     loadDirectory rt filter fuel (dirOf args) <> None) ->
  (RunE rt flags args fuel = Some Panicked
   <-> exists filter info,
         NewFilter rt (dirOf args) (flag_includeGitIgnore flags) (flag_includeGit flags)
         = inl filter
         /\ os_Stat rt (dirOf args) = inl info
         /\ ShouldInclude rt filter (dirOf args) = false)
  /\ (RunE rt flags args fuel = Some Panicked
      \/ exists output err, RunE rt flags args fuel = Some (Returned (output, err))).
Proof.
  intros Hbuild. unfold RunE. fold (dirOf args).
  destruct (NewFilter rt (dirOf args) _ _) as [filter|e].
  - specialize (Hbuild filter eq_refl).
    destruct (loadDirectory rt filter fuel (dirOf args)) as [[root [e|]]|] eqn:Hload;
      [| |congruence].
    + split; [|right; eauto]. split; [discriminate|].
      intros (filter' & info & [= <-] & Hstat & Hrej).
      pose proof (rejected_root_load _ _ _ _ _ _ Hstat Hrej Hload). congruence.
    + destruct root as [root|]; simpl.
      * split; [|right; eauto]. split; [discriminate|].
        intros (filter' & info & [= <-] & Hstat & Hrej).
        pose proof (rejected_root_load _ _ _ _ _ _ Hstat Hrej Hload). congruence.
      * split; [|left; reflexivity]. split; [|reflexivity]. intros _.
        destruct (loadDirectory_result rt filter _ _ _ Hload)
          as [(e & [=]) | [(_ & info & Hstat & Hrej) | (i & r & [=] & _)]].
        exists filter, info; auto.
  - split; [|right; eauto]. split; [discriminate|].
    intros (filter & _ & [=] & _).
Qed.

Lemma panic_exactly_for_rejected_root_witness :
  (RunE Fixture.world defaultFlags [".git"] 8 = Some Panicked
   <-> exists filter info,
         NewFilter Fixture.world ".git" false false = inl filter
         /\ os_Stat Fixture.world ".git" = inl info
         /\ ShouldInclude Fixture.world filter ".git" = false)
  /\ RunE Fixture.world defaultFlags [".git"] 8 = Some Panicked
  /\ exists output, RunE Fixture.world defaultFlags ["sub"] 8 = Some (Returned (output, None)).
Proof.
  split; [|split; [reflexivity|]].
  - apply (panic_exactly_for_rejected_root Fixture.world defaultFlags [".git"] 8).
    intros filter Hfilter. vm_compute in Hfilter. injection Hfilter as <-.
    vm_compute. discriminate.
  - destruct (proj2 (panic_exactly_for_rejected_root Fixture.world defaultFlags ["sub"] 8
                       ltac:(intros filter Hfilter; vm_compute in Hfilter;
                             injection Hfilter as <-; vm_compute; discriminate)))
      as [Hpanic | (output & err & Hrun)].
    + vm_compute in Hpanic. discriminate.
    + exists output. rewrite Hrun. vm_compute in Hrun.
      injection Hrun as _ <-. reflexivity.
Defined.

Section WalkFailure.
Variable rt : Runtime.
Variable filter : Filter.

(** The result of the build when the walk fails. *)
Lemma walk_fails_load depth root kind path cause :
  WalkFails rt filter depth root kind path cause ->
  loadDirectory rt filter depth root = Some (None, Some (failureMessage kind path cause)).
Proof.
  induction 1 as
    [ depth root cause Hstat
    | depth root info cause Hstat Hinc Hdir Hread
    | depth root info cause Hstat Hinc Hdir Hlist
    | depth root info before item after kind path cause Hstat Hinc Hdir Hlist Hbefore _ IH ];
    simpl; rewrite Hstat; try (rewrite Hinc, Hdir; simpl).
  - reflexivity.
  - rewrite Hread. reflexivity.
  - rewrite Hlist. reflexivity.
  - rewrite Hlist. apply loadChildren_stops; assumption.
Qed.

End WalkFailure.

(** X5: when the walk of the directory fails, at any depth, the run prints
    nothing and returns the error of the build, which names the path, behind
    the words [failed to load directory structure]. *)
Theorem run_reports_walk_failure rt flags args filter depth kind path cause fuel :
  NewFilter rt (dirOf args) (flag_includeGitIgnore flags) (flag_includeGit flags) = inl filter ->
  WalkFails rt filter depth (dirOf args) kind path cause ->
  (depth <= fuel)%nat ->
  RunE rt flags args fuel
  = Some (Returned ("", Some ("failed to load directory structure: "
                               +:+ failureMessage kind path cause))).
Proof.
  intros Hnew Hwalk Hfuel. unfold RunE. fold (dirOf args). rewrite Hnew.
  rewrite (loadDirectory_mono rt filter depth fuel _ _ Hfuel (walk_fails_load _ _ _ _ _ _ _ Hwalk)).
  reflexivity.
Qed.

Lemma run_reports_walk_failure_witness :
  RunE Fixture.world defaultFlags ["bad"] 8
  = Some (Returned ("", Some "failed to load directory structure: failed to read file bad/secret: open bad/secret: permission denied")).
Proof.
  refine (run_reports_walk_failure Fixture.world defaultFlags ["bad"] (Fixture.filterOf "bad")
            2 ReadFailure "bad/secret" "open bad/secret: permission denied" 8
            eq_refl _ _); [|lia].
  apply (WalkFails_child Fixture.world (Fixture.filterOf "bad") 1 "bad"
           (mkFileInfo true 4096 (Z.shiftl 1 31 + 493) 0) ["ok.txt"] "secret" ["z.txt"]);
    try reflexivity.
  - constructor; [|constructor]. eexists. vm_compute. reflexivity.
  - apply (WalkFails_read Fixture.world (Fixture.filterOf "bad") 0 "bad/secret"
             (mkFileInfo false 6 420 0)); reflexivity.
Defined.

(** X6: [NewFilter] fails in exactly one case: ignored files are not asked
    for, the ignore file of the directory is there and it does not compile;
    the error is the error of the compilation. The run then returns that
    error behind the words [failed to create filter], before any walk. *)
Theorem filter_creation_fails_only_on_compile rt flags args err :
  (NewFilter rt (dirOf args) (flag_includeGitIgnore flags) (flag_includeGit flags) = inr err
   <-> flag_includeGitIgnore flags = false
       /\ (exists info, os_Stat rt (Filepath.Join (dirOf args) ".gitignore") = inl info)
       /\ ignore_CompileIgnoreFile rt (Filepath.Join (dirOf args) ".gitignore") = inr err)
  /\ (NewFilter rt (dirOf args) (flag_includeGitIgnore flags) (flag_includeGit flags) = inr err ->
      forall fuel,
        RunE rt flags args fuel
        = Some (Returned ("", Some ("failed to create filter: " +:+ err)))).
Proof.
  split.
  - unfold NewFilter. destruct (flag_includeGitIgnore flags); simpl.
    + split; [discriminate | intros [[=] _]].
    + destruct (os_Stat rt (Filepath.Join (dirOf args) ".gitignore")) as [info|e].
      * destruct (ignore_CompileIgnoreFile rt _) as [gi|e].
        -- split; [discriminate | intros (_ & _ & [=])].
        -- split; [intros [= ->]; eauto | intros (_ & _ & [= ->]); reflexivity].
      * split; [discriminate | intros (_ & (info & [=]) & _)].
  - intros Hnew fuel. unfold RunE. fold (dirOf args). rewrite Hnew. reflexivity.
Qed.

Lemma filter_creation_fails_only_on_compile_witness :
  RunE brokenIgnoreWorld defaultFlags ["proj"] 0
  = Some (Returned ("", Some "failed to create filter: invalid pattern in proj/.gitignore")).
Proof.
  apply (proj2 (filter_creation_fails_only_on_compile brokenIgnoreWorld defaultFlags ["proj"]
                  "invalid pattern in proj/.gitignore")).
  reflexivity.
Defined.

(** ** The filter and its flags *)

(** X7: setting a flag of the filter never takes a path away: a path that
    is included is still included with the .git directory asked for, and
    with the ignored files asked for. *)
Theorem include_flags_only_add rt f path :
  ShouldInclude rt f path = true ->
  ShouldInclude rt (withIncludeGit f) path = true
  /\ ShouldInclude rt (withIncludeAll f) path = true.
Proof.
  unfold ShouldInclude, withIncludeGit, withIncludeAll. simpl.
  destruct (includeGit f); simpl.
  - intros H. split; [exact H | reflexivity].
  - destruct (String.eqb (Filepath.Base path) ".git"); [discriminate|].
    destruct (Strings.Contains (Filepath.ToSlash path) "/.git/"); [discriminate|].
    intros H. split; [exact H | reflexivity].
Qed.

Lemma include_flags_only_add_witness :
  ShouldInclude Fixture.world (Fixture.filterOf "proj") "proj/a.txt" = true
  /\ ShouldInclude Fixture.world (withIncludeGit (Fixture.filterOf "proj")) "proj/a.txt" = true
  /\ ShouldInclude Fixture.world (withIncludeAll (Fixture.filterOf "proj")) "proj/a.txt" = true.
Proof.
  split; [reflexivity|].
  apply (include_flags_only_add Fixture.world (Fixture.filterOf "proj") "proj/a.txt").
  reflexivity.
Defined.

(** X8: when ignored files are asked for, or the directory has no ignore
    file, [NewFilter] succeeds and its filter depends on the path alone
    and on the .git flag: it includes a path exactly when the .git
    directory is asked for or the path neither has the base name [.git]
    nor contains [/.git/]. *)
Theorem without_ignore_file_only_git_is_filtered rt dir includeGitIgnore includeGit :
  includeGitIgnore = true
  \/ (exists e, os_Stat rt (Filepath.Join dir ".gitignore") = inr e) ->
  exists f,
    NewFilter rt dir includeGitIgnore includeGit = inl f
    /\ forall path, ShouldInclude rt f path = includeGit || negb (gitExcluded path).
Proof.
  intros Hcase. unfold NewFilter.
  assert (Hinc : forall all,
            (all = true \/ includeGitIgnore = false) ->
            forall path,
              ShouldInclude rt {| gitIgnore := None; includeAll := all;
                                  includeGit := includeGit; baseDir := dir |} path
              = includeGit || negb (gitExcluded path)).
  { intros all _ path. unfold ShouldInclude, gitExcluded. simpl.
    destruct includeGit; simpl; [destruct all; reflexivity|].
    destruct (String.eqb (Filepath.Base path) ".git"); [reflexivity|].
    destruct (Strings.Contains (Filepath.ToSlash path) "/.git/"); [reflexivity|].
    destruct all; reflexivity. }
  destruct includeGitIgnore; simpl.
  - eexists. split; [reflexivity|]. apply Hinc. auto.
  - destruct Hcase as [[=] | (e & ->)].
    eexists. split; [reflexivity|]. apply Hinc. auto.
Qed.

Lemma without_ignore_file_only_git_is_filtered_witness :
  exists f,
    NewFilter Fixture.world "." false false = inl f
    /\ forall path, ShouldInclude Fixture.world f path = negb (gitExcluded path).
Proof.
  apply (without_ignore_file_only_git_is_filtered Fixture.world "." false false).
  right. eexists. reflexivity.
Defined.

Lemma git_after_slash_excluded_witness :
  ShouldInclude Fixture.world (Fixture.filterOf ".") "vendor/.git/config" = false
  /\ ShouldInclude Fixture.world (Fixture.filterOf ".") "vendor/.git" = false.
Proof.
  split.
  - exact (git_after_slash_excluded Fixture.world (Fixture.filterOf ".") "vendor" "/config"
             eq_refl (or_intror (ex_intro _ "config" eq_refl))).
  - exact (git_after_slash_excluded Fixture.world (Fixture.filterOf ".") "vendor" ""
             eq_refl (or_introl eq_refl)).
Defined.

(** ** The counters and the records *)

Lemma length_flat_map_sum {A B : Type} (f : A -> list B) (l : list A) :
  Z.of_nat (length (flat_map f l))
  = fold_right Z.add 0 (map (fun a => Z.of_nat (length (f a))) l).
Proof.
  induction l as [|a l IH]; simpl; [reflexivity|].
  rewrite length_app, Nat2Z.inj_add, IH. reflexivity.
Qed.

Lemma sum_flat_map {A : Type} (f : A -> list Z) (l : list A) :
  fold_right Z.add 0 (flat_map f l)
  = fold_right Z.add 0 (map (fun a => fold_right Z.add 0 (f a)) l).
Proof.
  induction l as [|a l IH]; simpl; [reflexivity|].
  rewrite fold_right_app, <- IH.
  generalize (fold_right Z.add 0 (flat_map f l)). intros z.
  induction (f a) as [|x xs IHxs]; simpl; lia.
Qed.

Lemma map_flat_map {A B C : Type} (g : B -> C) (f : A -> list B) (l : list A) :
  map g (flat_map f l) = flat_map (fun a => map g (f a)) l.
Proof.
  induction l as [|a l IH]; simpl; [reflexivity|]. now rewrite map_app, IH.
Qed.

(** X10: in any tree, built or not, the two totals are taken over exactly
    the files that get a record: [getTotalFiles] is their number and
    [getTotalSize] the sum of their sizes, in 64-bit arithmetic; what is
    below a non-directory entry is neither counted nor rendered. *)
Theorem totals_follow_the_rendered_files entry :
  Forall (fun e => isInt64 (Size e)) (filesOf entry) ->
  getTotalFiles entry = wrap64 (Z.of_nat (length (filesOf entry)))
  /\ getTotalSize entry = wrap64 (fold_right Z.add 0 (map Size (filesOf entry))).
Proof.
  induction entry as [entry IH] using FileEntry_ind.
  rewrite filesOf_unfold, getTotalFiles_unfold, getTotalSize_unfold.
  destruct (IsDir entry); simpl negb; cbv iota.
  - intros Hsizes. apply Forall_flat_map in Hsizes.
    assert (Hchildren : Forall (fun c =>
               getTotalFiles c = wrap64 (Z.of_nat (length (filesOf c)))
               /\ getTotalSize c = wrap64 (fold_right Z.add 0 (map Size (filesOf c))))
              (Children entry)).
    { clear -IH Hsizes. induction IH as [|c cs Hc _ IHcs]; constructor.
      - apply Hc. exact (Forall_inv Hsizes).
      - apply IHcs. exact (Forall_inv_tail Hsizes). }
    rewrite length_flat_map_sum, map_flat_map, sum_flat_map. split.
    + change (fold_left (fun total child => wrap64 (total + getTotalFiles child))
                (Children entry) (wrap64 0)
              = wrap64 (0 + fold_right Z.add 0
                              (map (fun c => Z.of_nat (length (filesOf c))) (Children entry)))).
      apply tally_loop. eapply Forall_impl; [exact Hchildren|]. intros c Hc; apply Hc.
    + change (fold_left (fun total child => wrap64 (total + getTotalSize child))
                (Children entry) (wrap64 0)
              = wrap64 (0 + fold_right Z.add 0
                              (map (fun c => fold_right Z.add 0 (map Size (filesOf c)))
                                 (Children entry)))).
      apply tally_loop. eapply Forall_impl; [exact Hchildren|]. intros c Hc; apply Hc.
  - intros Hsizes. simpl. split; [reflexivity|].
    rewrite Z.add_0_r. symmetry. apply wrap64_id. exact (Forall_inv Hsizes).
Qed.

Lemma totals_follow_the_rendered_files_witness :
  exists root,
    Fixture.treeOf "src" = Some root
    /\ map Path (filesOf root) = ["src/a.go"; "src/lib/b.go"; "src/z.go"]
    /\ getTotalFiles root = 3 /\ getTotalSize root = 27.
Proof.
  destruct (Fixture.treeOf "src") as [root|] eqn:Htree; [|vm_compute in Htree; discriminate].
  exists root. split; [reflexivity|].
  destruct (totals_follow_the_rendered_files root) as [Hfiles Hsize].
  { vm_compute in Htree. injection Htree as <-. simpl.
    repeat (constructor; [vm_compute; split; [discriminate | reflexivity]|]).
    constructor. }
  rewrite Hfiles, Hsize. vm_compute in Htree. injection Htree as <-.
  repeat split; reflexivity.
Defined.

(** *** The printer of cmd/flatten/main.go, file by file *)

Lemma printFlattenedOutput_file_dedup rt entry w fileHashes :
  IsDir entry = false ->
  printFlattenedOutput rt false entry (w, fileHashes)
  = match fileHashes !! sha256_hex rt (Content entry) with
    | Some existing =>
        (w +:+ (pathLine entry +:+ "" +:+ identicalLine (fh_Path existing)), fileHashes)
    | None =>
        (w +:+ (pathLine entry +:+ "" +:+ contentBlock entry),
         <[sha256_hex rt (Content entry) :=
             {| fh_Path := Path entry; fh_Hash := sha256_hex rt (Content entry);
                fh_Content := Content entry |}]> fileHashes)
    end.
Proof.
  intros Hfile. rewrite printFlattenedOutput_unfold, Hfile. simpl negb. cbv iota.
  unfold calculateFileHash.
  destruct (fileHashes !! sha256_hex rt (Content entry)); rewrite append_assoc; reflexivity.
Qed.

Lemma printFlattenedOutput_file_plain rt entry w fileHashes :
  IsDir entry = false ->
  printFlattenedOutput rt true entry (w, fileHashes)
  = (w +:+ fullRecord (fun _ => "") entry, fileHashes).
Proof.
  intros Hfile. rewrite printFlattenedOutput_unfold, Hfile. simpl negb. cbv iota.
  unfold fullRecord. rewrite append_assoc. reflexivity.
Qed.

Lemma find_nowhere {A : Type} (p : A -> bool) (l : list A) :
  (forall x, In x l -> p x = false) -> List.find p l = None.
Proof.
  induction l as [|x l IH]; intros Hall; simpl; [reflexivity|].
  rewrite (Hall x (or_introl eq_refl)). apply IH. intros y Hy. apply Hall. now right.
Qed.

(** Files with digests all different, and different from those of the
    files rendered before, get their full records. *)
Lemma recordsFrom_without_duplicates hashOf between files :
  forall earlier,
    List.NoDup (map (fun e => hashOf (Content e)) (earlier ++ files)) ->
    recordsFrom hashOf between earlier files = map (fullRecord between) files.
Proof.
  induction files as [|entry rest IH]; intros earlier Hnodup; simpl; [reflexivity|].
  assert (Hfirst : firstWithDigest hashOf earlier entry = None).
  { apply find_nowhere. intros e He. apply String.eqb_neq. intros Heq.
    rewrite map_app in Hnodup. simpl in Hnodup.
    apply List.NoDup_remove_2 in Hnodup. apply Hnodup.
    apply in_or_app. left. rewrite <- Heq.
    exact (in_map (fun e => hashOf (Content e)) earlier e He). }
  rewrite Hfirst. unfold fullRecord at 1. f_equal.
  apply IH. rewrite <- app_assoc. exact Hnodup.
Qed.

(** X11: when no two files of a tree have the same digest, deduplication
    changes nothing: the text written with it is the text written
    without it. *)
Theorem dedup_without_duplicates_is_plain rt entry w :
  List.NoDup (map (digestOf rt) (filesOf entry)) ->
  fst (printFlattenedOutput rt false entry (w, ∅))
  = fst (printFlattenedOutput rt true entry (w, ∅)).
Proof.
  intros Hnodup.
  rewrite (print_records_from_empty (sha256_hex rt) (fun _ => "")
             (printFlattenedOutput rt false)
             (fun e st => printFlattenedOutput_dir rt false e st)
             (printFlattenedOutput_file_dedup rt)).
  rewrite (print_full_records (fun _ => "") (printFlattenedOutput rt true)
             (fun e st => printFlattenedOutput_dir rt true e st)
             (printFlattenedOutput_file_plain rt)).
  simpl. f_equal. f_equal.
  apply recordsFrom_without_duplicates. exact Hnodup.
Qed.

Lemma dedup_without_duplicates_is_plain_witness :
  exists root,
    Fixture.treeOf "proj" = Some root
    /\ map Path (filesOf root) = ["proj/.gitignore"; "proj/a.txt"]
    /\ fst (printFlattenedOutput Fixture.world false root ("", ∅))
       = fst (printFlattenedOutput Fixture.world true root ("", ∅)).
Proof.
  destruct (Fixture.treeOf "proj") as [root|] eqn:Htree; [|vm_compute in Htree; discriminate].
  exists root. split; [reflexivity|].
  vm_compute in Htree. injection Htree as <-.
  split; [reflexivity|].
  apply dedup_without_duplicates_is_plain.
  vm_compute. repeat (constructor; [simpl; intuition discriminate|]). constructor.
Defined.

(** X12: after a tree has been rendered with deduplication, starting from
    the empty map, the map holds under each digest the path, the digest
    and the content of the first file of the traversal that has this
    digest, and nothing under a digest that no file has. *)
Theorem digest_map_after_rendering rt entry w hash :
  snd (printFlattenedOutput rt false entry (w, ∅)) !! hash
  = (fun first => {| fh_Path := Path first; fh_Hash := hash; fh_Content := Content first |})
    <$> List.find (fun e => String.eqb (digestOf rt e) hash) (filesOf entry).
Proof.
  destruct (print_records (sha256_hex rt) (fun _ => "") (printFlattenedOutput rt false)
              (fun e st => printFlattenedOutput_dir rt false e st)
              (printFlattenedOutput_file_dedup rt) entry w ∅ []
              (tracks_empty (sha256_hex rt)))
    as (hashes & -> & Htracks).
  exact (Htracks hash).
Qed.

(** ** The two printers *)

Lemma fold_left_agree {A S : Type} (f g : A -> S -> S) (l : list A) :
  Forall (fun a => forall st, f a st = g a st) l ->
  forall st, fold_left (fun st a => f a st) l st = fold_left (fun st a => g a st) l st.
Proof.
  induction 1 as [|a l Ha _ IH]; intros st; simpl; [reflexivity|].
  rewrite Ha. apply IH.
Qed.

(** X13: with no metadata flag set, the printer with metadata writes what
    the printer of cmd/flatten/main.go writes, and keeps the same map of
    digests, with and without deduplication. *)
Theorem no_metadata_is_the_plain_printer rt mrt noDedup entry :
  forall st,
    MainMeta.printFlattenedOutput rt mrt (noMetadata noDedup) entry st
    = printFlattenedOutput rt noDedup entry st.
Proof.
  induction entry as [entry IH] using FileEntry_ind. intros [w fileHashes].
  rewrite printFlattenedOutput_meta_unfold, printFlattenedOutput_unfold.
  destruct (IsDir entry); simpl negb; cbv iota.
  - apply (fold_left_agree
             (fun child st => MainMeta.printFlattenedOutput rt mrt (noMetadata noDedup) child st)
             (fun child st => printFlattenedOutput rt noDedup child st)).
    exact IH.
  - change (MainMeta.metadataLines rt mrt (noMetadata noDedup) entry (w +:+ pathLine entry))
      with (w +:+ pathLine entry).
    change (MainMeta.noFileDeduplication (noMetadata noDedup)) with noDedup.
    reflexivity.
Qed.

(** X14: the flag for all metadata makes the single flags irrelevant: two
    runs that both set it write the same metadata lines for a file,
    whatever their other metadata flags are. *)
Theorem all_metadata_overrides rt mrt flags1 flags2 entry w :
  MainMeta.showAllMetadata flags1 = true ->
  MainMeta.showAllMetadata flags2 = true ->
  MainMeta.metadataLines rt mrt flags1 entry w
  = MainMeta.metadataLines rt mrt flags2 entry w.
Proof.
  intros H1 H2.
  unfold MainMeta.metadataLines, MainMeta.writeLastUpdated, MainMeta.writeMode,
    MainMeta.writeSize, MainMeta.writeMimeType, MainMeta.writeSymlinkTarget,
    MainMeta.writeOwnership, MainMeta.writeChecksum.
  rewrite H1, H2. reflexivity.
Qed.

Lemma all_metadata_overrides_witness :
  MainMeta.metadataLines Fixture.world Fixture.metaWorld
    {| MainMeta.showLastUpdated := false; MainMeta.showFileMode := false;
       MainMeta.showFileSize := false; MainMeta.showMimeType := false;
       MainMeta.showSymlinks := false; MainMeta.showOwnership := false;
       MainMeta.showChecksum := false; MainMeta.showAllMetadata := true;
       MainMeta.noFileDeduplication := false |}
    (mkFileEntry "a.txt" false 5 420 0 (Fixture.bytes "hello") []) ""
  = "- last updated: 1970-01-01T00:00:00Z" +:+ LF
    +:+ "- mode: -rw-r--r--" +:+ LF
    +:+ "- size: 5 bytes" +:+ LF
    +:+ "- mime-type: text/plain; charset=utf-8" +:+ LF
    +:+ "- owner: dev" +:+ LF
    +:+ "- group: dev" +:+ LF
    +:+ "- sha256: hello" +:+ LF.
Proof.
  rewrite (all_metadata_overrides Fixture.world Fixture.metaWorld
             {| MainMeta.showLastUpdated := false; MainMeta.showFileMode := false;
                MainMeta.showFileSize := false; MainMeta.showMimeType := false;
                MainMeta.showSymlinks := false; MainMeta.showOwnership := false;
                MainMeta.showChecksum := false; MainMeta.showAllMetadata := true;
                MainMeta.noFileDeduplication := false |}
             {| MainMeta.showLastUpdated := true; MainMeta.showFileMode := true;
                MainMeta.showFileSize := true; MainMeta.showMimeType := true;
                MainMeta.showSymlinks := true; MainMeta.showOwnership := true;
                MainMeta.showChecksum := true; MainMeta.showAllMetadata := true;
                MainMeta.noFileDeduplication := false |}
             (mkFileEntry "a.txt" false 5 420 0 (Fixture.bytes "hello") []) ""
             eq_refl eq_refl).
  reflexivity.
Defined.

(** ** The diagram and the entries *)

(** The lines of a printed entry are one for the entry and one for each
    entry below it, in the order of [entriesOf]. *)
Lemma diagramLines_entries entry :
  treeInvariant entry ->
  forall ancestors isLast,
    List.Forall2 (fun line e => exists ancestors' isLast',
                                  line = diagramLine ancestors' isLast' e)
      (diagramLines ancestors isLast entry) (entriesOf entry).
Proof.
  induction entry as [entry IH] using FileEntry_ind.
  unfold treeInvariant. rewrite entriesOf_unfold. intros Hinv ancestors isLast.
  apply Forall_cons_1 in Hinv as [[_ Hfile] Hinv]. apply Forall_flat_map in Hinv.
  rewrite diagramLines_unfold.
  constructor; [exists ancestors, isLast; reflexivity|].
  destruct (IsDir entry); [|rewrite (Hfile eq_refl); constructor].
  clear Hfile. generalize (ancestors ++ [isLast])%list. intros ancestors'.
  induction IH as [|child rest Hchild _ IHrest]; simpl; [constructor|].
  apply List.Forall2_app.
  - apply Hchild. exact (Forall_inv Hinv).
  - apply IHrest. exact (Forall_inv_tail Hinv).
Qed.

(** X15: the diagram of a tree that satisfies the invariant of the data
    model is made of one line for each entry below the root (and one for
    the root first, when the path of the root is not ["."]), in the order
    of the depth-first traversal. The line of an entry is the indentation
    of some ancestors, four columns each, a connector, the base name of
    the path of the entry and a line feed, and nothing else: no entry of
    the tree is missing from the diagram and none is there twice. *)
Theorem diagram_lists_every_entry root :
  treeInvariant root ->
  Forall (fun d => Path d <> ".") (descendantsOf root) ->
  renderDirTree root "" false = written (diagramOf root)
  /\ List.Forall2
       (fun line e => exists ancestors isLast, line = diagramLine ancestors isLast e)
       (diagramOf root)
       (if String.eqb (Path root) "." then descendantsOf root else entriesOf root).
Proof.
  intros Hinv Hbelow. split.
  - unfold diagramOf.
    destruct (String.eqb_spec (Path root) ".") as [Hdot|Hpath].
    + rewrite renderDirTree_unfold. rewrite Hdot. cbv zeta. simpl negb. cbv iota.
      destruct (IsDir root); [|reflexivity].
      refine (renderChildren_lines
                (fun child last => renderDirTree child "" last)
                (diagramLines []) (Children root) _ 0 "").
      unfold descendantsOf in Hbelow. apply Forall_flat_map in Hbelow.
      clear -Hbelow. induction (Children root) as [|c cs IHcs]; constructor.
      * intros last. apply Forall_inv in Hbelow. rewrite entriesOf_unfold in Hbelow.
        apply (renderDirTree_printed c (Forall_inv Hbelow) (Forall_inv_tail Hbelow) []).
      * apply IHcs. exact (Forall_inv_tail Hbelow).
    + apply (renderDirTree_printed root Hpath Hbelow []).
  - unfold diagramOf. destruct (String.eqb (Path root) ".").
    + unfold treeInvariant in Hinv. rewrite entriesOf_unfold in Hinv.
      apply Forall_cons_1 in Hinv as [[_ Hfile] Hinv]. apply Forall_flat_map in Hinv.
      unfold descendantsOf.
      destruct (IsDir root); [|rewrite (Hfile eq_refl); constructor].
      clear -Hinv. induction (Children root) as [|child rest IHrest]; simpl; [constructor|].
      apply List.Forall2_app.
      * apply diagramLines_entries. exact (Forall_inv Hinv).
      * apply IHrest. exact (Forall_inv_tail Hinv).
    + apply diagramLines_entries. exact Hinv.
Qed.

Lemma diagram_lists_every_entry_witness :
  exists root,
    Fixture.treeOf "src" = Some root
    /\ renderDirTree root "" false = written (diagramOf root)
    /\ length (diagramOf root) = 5%nat
    /\ map Path (entriesOf root) = ["src"; "src/a.go"; "src/lib"; "src/lib/b.go"; "src/z.go"].
Proof.
  destruct (Fixture.treeOf "src") as [root|] eqn:Htree; [|vm_compute in Htree; discriminate].
  destruct (diagram_lists_every_entry root) as (Hrender & Hlines).
  - vm_compute in Htree. injection Htree as <-. unfold treeInvariant. simpl.
    repeat (constructor; [split; simpl; intros; try discriminate; reflexivity|]). constructor.
  - vm_compute in Htree. injection Htree as <-. simpl.
    repeat (constructor; [discriminate|]). constructor.
  - exists root. split; [reflexivity|]. split; [exact Hrender|].
    apply List.Forall2_length in Hlines.
    vm_compute in Htree. injection Htree as <-.
    split; [exact Hlines | reflexivity].
Defined.

(** ** Runs on the smallest trees *)

(** X16: a run without [--tf] on a path that is an included regular file,
    not a directory, whose read returns the content, builds a tree of
    that one entry: the output it builds and prints has one file, the
    size that the stat reports, a diagram of the one line of the file with
    the connector of a non-last entry, and the record of the file with its
    whole content, with and without deduplication. *)
Theorem run_on_a_regular_file rt flags args filter info content fuel :
  NewFilter rt (dirOf args) (flag_includeGitIgnore flags) (flag_includeGit flags) = inl filter ->
  os_Stat rt (dirOf args) = inl info ->
  info_IsDir info = false ->
  ShouldInclude rt filter (dirOf args) = true ->
  os_ReadFile rt (dirOf args) = inl content ->
  dirOf args <> "." ->
  RunE rt flags args (S fuel)
  = Some (Returned
            (written
               [ "- Total files: 1" +:+ LF;
                 "- Total size: " +:+ fmt_d (info_Size info) +:+ " bytes" +:+ LF;
                 "- Dir tree:" +:+ LF;
                 "├── " +:+ Filepath.Base (dirOf args) +:+ LF;
                 LF;
                 LF +:+ "- path: " +:+ dirOf args +:+ LF;
                 "- content:" +:+ LF;
                 "```" +:+ LF;
                 string_of_list_byte content +:+ LF;
                 "```" +:+ LF ],
             None)).
Proof.
  intros Hnew Hstat Hfile Hinc Hread Hdot.
  unfold RunE. fold (dirOf args). rewrite Hnew.
  simpl loadDirectory. rewrite Hstat, Hinc, Hfile, Hread. simpl negb. cbv iota.
  unfold callOn, andThen.
  rewrite getTotalFiles_unfold, getTotalSize_unfold, renderDirTree_unfold,
    printFlattenedOutput_unfold.
  simpl IsDir. simpl negb. cbv iota zeta. simpl Path. simpl Size. simpl Content.
  apply String.eqb_neq in Hdot. rewrite Hdot. simpl negb. cbv iota.
  rewrite lookup_empty.
  assert (Hout : forall (st : string * gmap string FileHash) text,
            fst st = text -> Some (Returned (fst st, @None error)) = Some (Returned (text, None)))
    by (intros st text <-; reflexivity).
  destruct (flag_noFileDeduplication flags); apply Hout; cbn [fst];
    unfold pathLine, contentBlock, written, setContent; cbn [fold_right Path Content];
    rewrite !append_assoc; reflexivity.
Qed.

Lemma run_on_a_regular_file_witness :
  RunE Fixture.world defaultFlags ["sub/b.txt"] 1
  = Some (Returned
            (written
               [ "- Total files: 1" +:+ LF;
                 "- Total size: 5 bytes" +:+ LF;
                 "- Dir tree:" +:+ LF;
                 "├── b.txt" +:+ LF;
                 LF;
                 LF +:+ "- path: sub/b.txt" +:+ LF;
                 "- content:" +:+ LF;
                 "```" +:+ LF;
                 "hello" +:+ LF;
                 "```" +:+ LF ],
             None)).
Proof.
  apply (run_on_a_regular_file Fixture.world defaultFlags ["sub/b.txt"]
           (Fixture.filterOf "sub/b.txt") (mkFileInfo false 5 420 0) (Fixture.bytes "hello") 0);
    try reflexivity.
  discriminate.
Defined.

Section NothingIncluded.
Variable rt : Runtime.
Variable filter : Filter.


End NothingIncluded.



(** ** The text of a run *)

(** X18: when the filter is created and the build returns a tree, a run
    without [--tf] returns no error and prints, in this order and with
    nothing else: the line of the number of files, the line of the total
    size, the diagram under its heading, an empty line, and the records of
    the files of the tree in the order of the traversal, deduplicated by
    first occurrence or, with [--no-dedup], each with its content. *)
Theorem run_prints_summary_diagram_records rt flags args filter fuel root :
  NewFilter rt (dirOf args) (flag_includeGitIgnore flags) (flag_includeGit flags) = inl filter ->
  loadDirectory rt filter fuel (dirOf args) = Some (Some root, None) ->
  RunE rt flags args fuel
  = Some (Returned
            (written
               ([ "- Total files: " +:+ fmt_d (getTotalFiles root) +:+ LF;
                  "- Total size: " +:+ fmt_d (getTotalSize root) +:+ " bytes" +:+ LF;
                  "- Dir tree:" +:+ LF;
                  renderDirTree root "" false;
                  LF ]
                ++ (if flag_noFileDeduplication flags
                    then map (fullRecord (fun _ => "")) (filesOf root)
                    else recordsFrom (sha256_hex rt) (fun _ => "") [] (filesOf root))),
             None)).
Proof.
  intros Hnew Hload. unfold RunE. fold (dirOf args). rewrite Hnew, Hload.
  unfold callOn, andThen. do 3 f_equal.
  rewrite written_app.
  set (header := "" +:+ ("- Total files: " +:+ fmt_d (getTotalFiles root) +:+ LF)).
  assert (Hheader :
    (header +:+ ("- Total size: " +:+ fmt_d (getTotalSize root) +:+ " bytes" +:+ LF))
    +:+ ("- Dir tree:" +:+ LF +:+ renderDirTree root "" false +:+ LF)
    = written [ "- Total files: " +:+ fmt_d (getTotalFiles root) +:+ LF;
                "- Total size: " +:+ fmt_d (getTotalSize root) +:+ " bytes" +:+ LF;
                "- Dir tree:" +:+ LF;
                renderDirTree root "" false;
                LF ]).
  { unfold header, written. cbn [fold_right]. rewrite !append_assoc. reflexivity. }
  rewrite Hheader.
  destruct (flag_noFileDeduplication flags).
  - rewrite (print_full_records (fun _ => "") (printFlattenedOutput rt true)
               (fun e st => printFlattenedOutput_dir rt true e st)
               (printFlattenedOutput_file_plain rt)).
    reflexivity.
  - apply (print_records_from_empty (sha256_hex rt) (fun _ => "")
             (printFlattenedOutput rt false)
             (fun e st => printFlattenedOutput_dir rt false e st)
             (printFlattenedOutput_file_dedup rt)).
Qed.

Lemma run_prints_summary_diagram_records_witness :
  RunE Fixture.world defaultFlags [] 8
  = Some (Returned
            (written
               [ "- Total files: 2" +:+ LF;
                 "- Total size: 10 bytes" +:+ LF;
                 "- Dir tree:" +:+ LF;
                 "├── a.txt" +:+ LF +:+ "└── sub" +:+ LF +:+ "    └── b.txt" +:+ LF;
                 LF;
                 LF +:+ "- path: a.txt" +:+ LF
                 +:+ "- content:" +:+ LF +:+ "```" +:+ LF +:+ "hello" +:+ LF +:+ "```" +:+ LF;
                 LF +:+ "- path: sub/b.txt" +:+ LF
                 +:+ "- content: Contents are identical to a.txt" +:+ LF ],
             None)).
Proof.
  assert (Hload : loadDirectory Fixture.world (Fixture.filterOf ".") 8 (dirOf [])
                  = Some (Fixture.treeOf ".", None)) by (vm_compute; reflexivity).
  destruct (Fixture.treeOf ".") as [root|] eqn:Htree; [|vm_compute in Htree; discriminate].
  rewrite (run_prints_summary_diagram_records Fixture.world defaultFlags []
             (Fixture.filterOf ".") 8 root eq_refl Hload).
  vm_compute in Htree. injection Htree as <-. reflexivity.
Defined.
